(** * Attendance by face recognition: the recognition and reporting routes

    A shallow embedding of [routes/attendance_routes.py]: the recognition
    endpoint [recognize], the JSON report [get_reports_data] and the CSV
    export [export_csv], over a relational store of students, faces and
    attendance rows.  The external libraries (OpenCV, face_recognition,
    [datetime.strptime], the float formatter) are parameters of the model;
    the matcher [compare_face], whose module is imported but is not part of
    the routes file, is modelled from its description. *)

From Stdlib Require Import QArith Qabs Qround Ascii String.
From Stdlib Require Import Permutation Sorted.
From stdpp Require Import gmap strings list pretty.

Local Open Scope string_scope.
Local Open Scope list_scope.
Local Open Scope Z_scope.

(** ** Exceptions

    A Python call either returns a value or raises; an exception is
    represented by its [str(e)]. *)

Inductive result (A : Type) : Type :=
  | Ok (a : A)
  | Raise (e : string).
Arguments Ok {A} a.
Arguments Raise {A} e.

(** ** Calendar dates and timestamps

    [datetime.date] and [datetime.datetime], with Python's field-wise
    (lexicographic) ordering. *)

Record date : Type := mkDate { year : Z; month : Z; day : Z }.

Record datetime : Type := mkDateTime {
  dt_date : date;
  dt_hour : Z;
  dt_minute : Z;
  dt_second : Z;
  dt_microsecond : Z
}.

#[global] Instance date_eq_dec : EqDecision date.
Proof. solve_decision. Defined.

#[global] Instance datetime_eq_dec : EqDecision datetime.
Proof. solve_decision. Defined.

Definition is_leap (y : Z) : bool :=
  (y mod 4 =? 0) && (negb (y mod 100 =? 0) || (y mod 400 =? 0)).

Definition days_in_month (y m : Z) : Z :=
  if m =? 2 then (if is_leap y then 29 else 28)
  else if (m =? 4) || (m =? 6) || (m =? 9) || (m =? 11) then 30
  else 31.

(** The values a [datetime.date] object can hold (MINYEAR = 1,
    MAXYEAR = 9999). *)
Definition valid_date (d : date) : Prop :=
  1 <= year d <= 9999 /\ 1 <= month d <= 12 /\
  1 <= day d <= days_in_month (year d) (month d).

(** Lexicographic comparison chain. *)
Definition lex (c : comparison) (k : comparison) : comparison :=
  match c with
  | Eq => k
  | _ => c
  end.

Definition date_compare (a b : date) : comparison :=
  lex (year a ?= year b) (lex (month a ?= month b) (day a ?= day b)).

(** [a <= b] on dates. *)
Definition date_leb (a b : date) : bool :=
  match date_compare a b with
  | Gt => false
  | _ => true
  end.

Definition datetime_compare (a b : datetime) : comparison :=
  lex (date_compare (dt_date a) (dt_date b))
  (lex (dt_hour a ?= dt_hour b)
  (lex (dt_minute a ?= dt_minute b)
  (lex (dt_second a ?= dt_second b)
       (dt_microsecond a ?= dt_microsecond b)))).

(** One decimal digit as a character. *)
Definition digit_char (d : Z) : ascii :=
  ascii_of_nat (48 + Z.to_nat (d mod 10)).

(** ["%02d"] for [0 <= n < 100] and ["%04d"] for [0 <= n < 10000]. *)
Definition fmt02 (n : Z) : string :=
  String (digit_char (n / 10)) (String (digit_char n) EmptyString).

Definition fmt04 (n : Z) : string :=
  String (digit_char (n / 1000)) (String (digit_char (n / 100))
    (String (digit_char (n / 10)) (String (digit_char n) EmptyString))).

(** [date.isoformat()]: ["YYYY-MM-DD"]. *)
Definition isoformat (d : date) : string :=
  fmt04 (year d) +:+ "-" +:+ fmt02 (month d) +:+ "-" +:+ fmt02 (day d).

(** [timestamp.strftime('%Y-%m-%d %H:%M:%S')], for a timestamp whose year
    has four digits: ['%Y'] is not padded. *)
Definition strftime_timestamp (t : datetime) : string :=
  isoformat (dt_date t) +:+ " " +:+ fmt02 (dt_hour t) +:+ ":" +:+
  fmt02 (dt_minute t) +:+ ":" +:+ fmt02 (dt_second t).

(** ** The relational store

    [Student.id] is the primary key; [Face.student_id] and
    [Attendance.student_id] are the foreign keys the routes join on. *)

Record Student : Type := mkStudent {
  s_id : Z;
  s_student_id : string;
  s_name : string
}.

Record Attendance : Type := mkAttendance {
  a_student_id : Z;
  a_date : date;
  a_timestamp : datetime;
  a_status : string
}.

#[global] Instance Student_eq_dec : EqDecision Student.
Proof. solve_decision. Defined.

#[global] Instance Attendance_eq_dec : EqDecision Attendance.
Proof. solve_decision. Defined.

(** ** JSON values and HTTP responses *)

#[local] Unset Elimination Schemes.
Inductive json : Type :=
  | JNull
  | JInt (n : Z)
  | JStr (s : string)
  | JList (l : list json)
  | JObj (fields : list (string * json)).
#[local] Set Elimination Schemes.

Inductive response : Type :=
  | JsonResponse (body : json) (status : Z)
  | CsvResponse (rows : list (list string)) (content_disposition : string).

(** [jsonify({'error': msg})]. *)
Definition error_body (msg : string) : json := JObj [("error", JStr msg)].

Definition status_of (r : response) : Z :=
  match r with
  | JsonResponse _ s => s
  | CsvResponse _ _ => 200
  end.

(** A face bounding box [(top, right, bottom, left)]. *)
Definition location : Type := Z * Z * Z * Z.

Definition location_json (l : location) : json :=
  let '(top, rgt, bottom, lft) := l in
  JList [JInt top; JInt rgt; JInt bottom; JInt lft].

(** [l[i]] on a Python list. *)
Definition py_index {A : Type} (l : list A) (i : nat) : result A :=
  match l !! i with
  | Some x => Ok x
  | None => Raise "list index out of range"
  end.

(** [request.args.get(key)]: the first value stored under the key. *)
Fixpoint args_get (args : list (string * string)) (key : string) : option string :=
  match args with
  | [] => None
  | (k, v) :: rest => if String.eqb k key then Some v else args_get rest key
  end.

(** ** The external libraries

    Everything the routes call that lives outside the routes file: OpenCV,
    the face_recognition library, Python's [datetime] and float
    formatting, and the declarations of the database module. *)

Class External : Type := {
  (** Face encodings are opaque vectors produced by the recognition
      library; images are opaque OpenCV arrays. *)
  encoding : Type;
  image : Type;
  (** [np.frombuffer] followed by [cv2.imdecode(arr, cv2.IMREAD_COLOR)]:
      an image, [None], or an exception. *)
  imdecode : list Byte.byte -> result (option image);
  (** [cv2.cvtColor(img, cv2.COLOR_BGR2RGB)]. *)
  cvtColor : image -> result image;
  (** [face_recognition.face_locations] and
      [face_recognition.face_encodings]. *)
  face_locations : image -> result (list location);
  face_encodings : image -> list location -> result (list encoding);
  (** [face_recognition.face_distance] on one pair of encodings.  A finite
      float is a rational number and float comparison is exact on them,
      so distances are rationals. *)
  face_distance : encoding -> encoding -> Q;
  (** Modelled from the spec: the "derived confidence score" of the
      matcher, as a function of the best distance; how it is derived is
      left open. *)
  confidence_of : Q -> Q;
  (** The format [f"{confidence * 100:.2f}%"]. *)
  format_confidence : Q -> string;
  (** The column default of [Attendance.status]. *)
  default_status : string;
  (** [datetime.strptime(s, '%Y-%m-%d').date()]; the argument is [None]
      when the query parameter is absent. *)
  strptime_date : option string -> result date
}.

(** ** The store and the state of the application

    The tables are lists of rows in insertion order.  The application
    state adds the error log written through [current_app.logger]. *)

Section Routes.

Context `{Ext : External}.

Record Face : Type := mkFace {
  f_student_id : Z;
  f_encoding : encoding
}.

Record DB : Type := mkDB {
  students : list Student;
  faces : list Face;
  attendance : list Attendance
}.

Record app_state : Type := mkState {
  db : DB;
  log : list string
}.

(** *** The face matcher *)

(** The tolerance the recognition endpoint passes: [tolerance=0.5]. *)
Definition tolerance : Q := 1 # 2.

(** Strict comparison of two distances. *)
Definition Qltb (x y : Q) : bool := negb (Qle_bool y x).

(** Modelled from the spec: the "selects the minimum" step of the matcher,
    as a scan of the distances that carries the best index and distance so
    far and the position of the next candidate.  Of several equal minima
    the first is kept, as numpy's [argmin] does. *)
Fixpoint argmin_from (best_i : nat) (best_d : Q) (i : nat) (ds : list Q)
  : nat * Q :=
  match ds with
  | [] => (best_i, best_d)
  | d :: rest =>
      if Qltb d best_d then argmin_from i d (S i) rest
      else argmin_from best_i best_d (S i) rest
  end.

(** Modelled from the spec: [models/face_recognition_model.py] is not part
    of the sources.  "Given a list of known encodings and a live encoding,
    computes distance to each known encoding, selects the minimum, and
    accepts it as a match only if distance is below a fixed tolerance.
    Returns the matched index and a derived confidence score, or no
    match."  The caller always unpacks a pair and formats the confidence,
    so a score is returned with "no match" as well. *)
Definition compare_face (known_encodings : list encoding) (live : encoding)
    (tol : Q) : option nat * Q :=
  match map (fun k => face_distance k live) known_encodings with
  | [] => (None, 0%Q)
  | d :: ds =>
      let '(best_idx, best) := argmin_from 0 d 1 ds in
      if Qltb best tol then (Some best_idx, confidence_of best)
      else (None, confidence_of best)
  end.

(** *** A state and exception monad for the request handlers

    A handler step reads and updates the application state and either
    returns or raises.  What was committed before an exception stays. *)

Definition M (A : Type) : Type := app_state -> result A * app_state.

Definition ret {A : Type} (a : A) : M A := fun st => (Ok a, st).

Definition bind {A B : Type} (m : M A) (k : A -> M B) : M B :=
  fun st =>
    match m st with
    | (Ok a, st') => k a st'
    | (Raise e, st') => (Raise e, st')
    end.

Definition lift {A : Type} (r : result A) : M A := fun st => (r, st).

Notation "'let*' x ':=' m 'in' k" := (bind m (fun x => k))
  (at level 10, x name, m at level 100, k at level 200, only parsing).

(** [current_app.logger.error(msg)]. *)
Definition log_error (msg : string) (st : app_state) : app_state :=
  {| db := db st; log := log st ++ [msg] |}.

(** [db.session.add(att); db.session.commit()], when the commit succeeds. *)
Definition insert_attendance (att : Attendance) (st : app_state) : app_state :=
  {| db := {| students := students (db st);
              faces := faces (db st);
              attendance := attendance (db st) ++ [att] |};
     log := log st |}.

(** *** The environment of one request

    What the outside world answers during one call of a handler. *)

Record upload : Type := mkUpload {
  read : result (list Byte.byte)        (* file.read() *)
}.

Record request : Type := mkRequest {
  files_image : option upload;          (* request.files.get('image') *)
  args : list (string * string)         (* request.args *)
}.

Record environment : Type := mkEnv {
  today : date;                          (* date.today() *)
  utcnow : nat -> datetime;              (* datetime.utcnow() in iteration i *)
  known_faces_error : option string;     (* the gallery query raises *)
  lookup_error : nat -> option string;   (* the existence query raises in iteration i *)
  commit_error : nat -> option string    (* add/commit raises in iteration i *)
}.

(** *** Queries *)

(** [db.session.query(Face.encoding, Student.id, Student.name).join(Student).all()]:
    the inner join of [Face] with [Student] on the foreign key. *)
Definition known_faces_rows (d : DB) : list (encoding * Z * string) :=
  flat_map (fun f =>
    map (fun s => (f_encoding f, s_id s, s_name s))
        (filter (fun s => s_id s = f_student_id f) (students d)))
    (faces d).

Definition query_known_faces (env : environment) : M (list (encoding * Z * string)) :=
  fun st =>
    match known_faces_error env with
    | Some e => (Raise e, st)
    | None => (Ok (known_faces_rows (db st)), st)
    end.

(** The rows of [Attendance] for one student on one date. *)
Definition attendance_on (student_pk : Z) (d : date) (att : list Attendance)
  : list Attendance :=
  filter (fun a => a_student_id a = student_pk /\ a_date a = d) att.

(** [Attendance.query.filter(Attendance.student_id == student_pk,
    Attendance.date == today).first()]. *)
Definition query_already_marked (env : environment) (i : nat) (student_pk : Z)
  : M (option Attendance) :=
  fun st =>
    match lookup_error env i with
    | Some e => (Raise e, st)
    | None => (Ok (head (attendance_on student_pk (today env) (attendance (db st)))), st)
    end.

(** *** POST /api/recognize *)

(** The [try: ... except Exception as e:] around the insert. *)
Definition mark_attendance (env : environment) (i : nat) (student_pk : Z)
    (name : string) : M string :=
  fun st =>
    match commit_error env i with
    | None =>
        let att := {| a_student_id := student_pk;
                      a_date := today env;
                      a_timestamp := utcnow env i;
                      a_status := default_status |} in
        (Ok (name +:+ " (Marked)"), insert_attendance att st)
    | Some e =>
        (* db.session.rollback(): the pending row is discarded *)
        (Ok name, log_error ("Error marking attendance: " +:+ e) st)
    end.

(** One entry of [results]. *)
Definition face_result (name : string) (confidence : Q) (loc : location) : json :=
  JObj [("name", JStr name);
        ("confidence", JStr (format_confidence confidence));
        ("location", location_json loc)].

(** The body of the [for] loop, for the face at position [i]. *)
Definition process_face (env : environment)
    (known_encodings : list encoding) (known_student_ids : list Z)
    (known_names : list string) (i : nat) (loc : location)
    (live_encoding : encoding) : M json :=
  let '(match_idx, confidence) := compare_face known_encodings live_encoding tolerance in
  let* name :=
    match match_idx with
    | None => ret "Unknown"
    | Some idx =>
        let* name := lift (py_index known_names idx) in
        let* student_pk := lift (py_index known_student_ids idx) in
        let* already_marked := query_already_marked env i student_pk in
        match already_marked with
        | Some _ => ret name
        | None => mark_attendance env i student_pk name
        end
    end in
  ret (face_result name confidence loc).

Fixpoint recognize_loop (env : environment)
    (known_encodings : list encoding) (known_student_ids : list Z)
    (known_names : list string) (i : nat)
    (detected : list (location * encoding)) : M (list json) :=
  match detected with
  | [] => ret []
  | (loc, live_encoding) :: rest =>
      let* r := process_face env known_encodings known_student_ids known_names
             i loc live_encoding in
      let* rs := recognize_loop env known_encodings known_student_ids known_names
              (S i) rest in
      ret (r :: rs)
  end.

(** The [try] block of [recognize]. *)
Definition recognize_body (env : environment) (file : upload) : M response :=
  let* in_memory := lift (read file) in
  let* img := lift (imdecode in_memory) in
  match img with
  | None => ret (JsonResponse (error_body "could not decode image") 400)
  | Some img =>
      let* rgb_img := lift (cvtColor img) in
      let* locations := lift (face_locations rgb_img) in
      let* live_encodings := lift (face_encodings rgb_img locations) in
      let* known_faces := query_known_faces env in
      match known_faces with
      | [] =>
          ret (JsonResponse
                 (JObj [("results", JList []);
                        ("locations", JList (map location_json locations))])
                 200)
      | _ :: _ =>
          let known_encodings := map (fun f => f.1.1) known_faces in
          let known_student_ids := map (fun f => f.1.2) known_faces in
          let known_names := map (fun f => f.2) known_faces in
          let* results := recognize_loop env known_encodings known_student_ids
                       known_names 0%nat (zip locations live_encodings) in
          ret (JsonResponse (JObj [("results", JList results)]) 200)
      end
  end.

Definition recognize (env : environment) (req : request) (st : app_state)
  : response * app_state :=
  match files_image req with
  | None => (JsonResponse (error_body "no image uploaded") 400, st)
  | Some file =>
      match recognize_body env file st with
      | (Ok resp, st') => (resp, st')
      | (Raise e, st') =>
          (JsonResponse (error_body e) 500,
           log_error ("Recognition error: " +:+ e) st')
      end
  end.

(** A sequence of recognition requests, each with its own environment. *)
Fixpoint run_recognize (reqs : list (environment * request)) (st : app_state)
  : app_state :=
  match reqs with
  | [] => st
  | (env, req) :: rest => run_recognize rest (recognize env req st).2
  end.

(** *** GET /api/reports *)

(** [Attendance.date >= start_date] and [Attendance.date <= end_date]. *)
Definition in_range (start_date end_date : date) (a : Attendance) : bool :=
  date_leb start_date (a_date a) && date_leb (a_date a) end_date.

(** The [records] of one student in the loop of [get_reports_data]. *)
Definition student_records (s : Student) (start_date end_date : date)
    (att : list Attendance) : list Attendance :=
  filter (fun r => a_student_id r = s_id s /\ in_range start_date end_date r) att.

(** [{r.date.isoformat() for r in records}]. *)
Definition present_dates (records : list Attendance) : gset string :=
  list_to_set (map (fun r => isoformat (a_date r)) records).

Definition report_entry (s : Student) (dates : gset string) : json :=
  JObj [("id", JInt (s_id s));
        ("student_id", JStr (s_student_id s));
        ("name", JStr (s_name s));
        ("present_count", JInt (Z.of_nat (size dates)));
        ("present_dates", JList (map JStr (elements dates)))].

Definition report_data (start_date end_date : date) (d : DB) : list json :=
  map (fun s =>
         report_entry s
           (present_dates (student_records s start_date end_date (attendance d))))
      (students d).

(** Sequencing of calls that may raise. *)
Definition result_bind {A B : Type} (r : result A) (k : A -> result B) : result B :=
  match r with
  | Ok a => k a
  | Raise e => Raise e
  end.

Notation "'let+' x ':=' r 'in' k" := (result_bind r (fun x => k))
  (at level 10, x name, r at level 100, k at level 200, only parsing).

(** The two query parameters parsed as dates. *)
Definition parse_range (req : request) : result (date * date) :=
  let start_date_str := args_get (args req) "start_date" in
  let end_date_str := args_get (args req) "end_date" in
  let+ start_date := strptime_date start_date_str in
  let+ end_date := strptime_date end_date_str in
  Ok (start_date, end_date).

Definition get_reports_data (req : request) (d : DB) : response :=
  match parse_range req with
  | Ok (start_date, end_date) =>
      JsonResponse (JList (report_data start_date end_date d)) 200
  | Raise e => JsonResponse (error_body e) 400
  end.

(** *** GET /api/reports/export *)

(** [db.session.query(Attendance, Student).join(Student)]: the inner join
    on the foreign key. *)
Definition attendance_join_student (d : DB) : list (Attendance * Student) :=
  flat_map (fun a =>
    map (fun s => (a, s))
        (filter (fun s => s_id s = a_student_id a) (students d)))
    (attendance d).

(** [order_by(Attendance.date, Student.name, Attendance.timestamp)]. *)
Definition export_compare (x y : Attendance * Student) : comparison :=
  lex (date_compare (a_date x.1) (a_date y.1))
  (lex (String.compare (s_name x.2) (s_name y.2))
       (datetime_compare (a_timestamp x.1) (a_timestamp y.1))).

Fixpoint insert_ordered (x : Attendance * Student)
    (l : list (Attendance * Student)) : list (Attendance * Student) :=
  match l with
  | [] => [x]
  | y :: rest =>
      match export_compare x y with
      | Gt => y :: insert_ordered x rest
      | _ => x :: y :: rest
      end
  end.

Definition order_by (l : list (Attendance * Student)) : list (Attendance * Student) :=
  foldr insert_ordered [] l.

Definition export_records (start_date end_date : date) (d : DB)
  : list (Attendance * Student) :=
  order_by (filter (fun x => in_range start_date end_date x.1)
                   (attendance_join_student d)).

Definition csv_header : list string :=
  ["Student Name"; "Student ID"; "Date"; "Time"; "Status"].

Definition csv_row (x : Attendance * Student) : list string :=
  [s_name x.2; s_student_id x.2; isoformat (a_date x.1);
   strftime_timestamp (a_timestamp x.1); a_status x.1].

(** Formatting of a query parameter inside an f-string. *)
Definition py_str (o : option string) : string :=
  match o with
  | Some s => s
  | None => "None"
  end.

Definition export_csv (req : request) (d : DB) : response :=
  match parse_range req with
  | Ok (start_date, end_date) =>
      let records := export_records start_date end_date d in
      CsvResponse (csv_header :: map csv_row records)
        ("attachment;filename=attendance_report_" +:+
         py_str (args_get (args req) "start_date") +:+ "_to_" +:+
         py_str (args_get (args req) "end_date") +:+ ".csv")
  | Raise e => JsonResponse (error_body e) 400
  end.

(** The data rows of a CSV response: every row after the header. *)
Definition data_rows (r : response) : list (list string) :=
  match r with
  | CsvResponse rows _ => tail rows
  | JsonResponse _ _ => []
  end.

End Routes.

(** ** Vocabulary of the statements about the recognition endpoint *)

Section RecognizeVocabulary.

Context `{Ext : External}.

(** At most one attendance row for every student and every date. *)
Definition one_row_per_day (att : list Attendance) : Prop :=
  forall (student_pk : Z) (d : date),
    (length (attendance_on student_pk d att) <= 1)%nat.

(** The matcher, run on [live] against the gallery, answers an index whose
    row belongs to the student [student_pk]. *)
Definition matcher_picks (known_encodings : list encoding)
    (known_student_ids : list Z) (live : encoding) (student_pk : Z) : Prop :=
  exists idx,
    (compare_face known_encodings live tolerance).1 = Some idx /\
    known_student_ids !! idx = Some student_pk.

(** Some face of the list is matched to the student. *)
Definition matched_among (known_encodings : list encoding)
    (known_student_ids : list Z) (detected : list (location * encoding))
    (student_pk : Z) : Prop :=
  exists loc live,
    (loc, live) ∈ detected /\
    matcher_picks known_encodings known_student_ids live student_pk.

(** Some face detected in the uploaded image of the request is matched to
    the student, against the gallery stored in [d]. *)
Definition matched_in_request (req : request) (d : DB) (student_pk : Z) : Prop :=
  exists file in_memory img rgb_img locations live_encodings,
    files_image req = Some file /\
    read file = Ok in_memory /\
    imdecode in_memory = Ok (Some img) /\
    cvtColor img = Ok rgb_img /\
    face_locations rgb_img = Ok locations /\
    face_encodings rgb_img locations = Ok live_encodings /\
    matched_among (map (fun f => f.1.1) (known_faces_rows d))
                  (map (fun f => f.1.2) (known_faces_rows d))
                  (zip locations live_encodings) student_pk.

(** What a handler step may do to the store: [Student] and [Face] are
    untouched, [Attendance] only grows, by rows dated today that belong to
    students selected by [matched], and the one-row-per-day invariant is
    kept. *)
Definition marks_step (env : environment) (matched : Z -> Prop)
    (st st' : app_state) : Prop :=
  students (db st') = students (db st) /\
  faces (db st') = faces (db st) /\
  (exists added : list Attendance,
     attendance (db st') = attendance (db st) ++ added /\
     Forall (fun a => a_date a = today env /\ matched (a_student_id a)) added) /\
  (one_row_per_day (attendance (db st)) -> one_row_per_day (attendance (db st'))).

End RecognizeVocabulary.

(** ** Vocabulary of the statements about the reports *)

(** Reading a date back from its ISO form. *)
Definition char_digit (c : ascii) : option Z :=
  let n := Z.of_nat (nat_of_ascii c) in
  if (48 <=? n) && (n <=? 57) then Some (n - 48) else None.

Definition parse_iso (s : string) : option date :=
  match s with
  | String y3 (String y2 (String y1 (String y0 (String sep1
      (String m1 (String m0 (String sep2
        (String d1 (String d0 EmptyString))))))))) =>
      if Ascii.eqb sep1 "-" && Ascii.eqb sep2 "-" then
        y3 ← char_digit y3; y2 ← char_digit y2;
        y1 ← char_digit y1; y0 ← char_digit y0;
        m1 ← char_digit m1; m0 ← char_digit m0;
        d1 ← char_digit d1; d0 ← char_digit d0;
        Some {| year := 1000 * y3 + 100 * y2 + 10 * y1 + y0;
                month := 10 * m1 + m0;
                day := 10 * d1 + d0 |}
      else None
  | _ => None
  end.

(** A field of a JSON object. *)
Fixpoint fields_get (fields : list (string * json)) (key : string) : option json :=
  match fields with
  | [] => None
  | (k, v) :: rest => if String.eqb k key then Some v else fields_get rest key
  end.

Definition json_field (key : string) (j : json) : option json :=
  match j with
  | JObj fields => fields_get fields key
  | _ => None
  end.

(** The timestamps whose [strftime('%Y-%m-%d %H:%M:%S')] is the text of
    [strftime_timestamp]: fields in range and a year of four digits. *)
Definition printable_timestamp (t : datetime) : Prop :=
  1000 <= year (dt_date t) <= 9999 /\
  1 <= month (dt_date t) <= 12 /\ 1 <= day (dt_date t) <= 31 /\
  0 <= dt_hour t <= 23 /\ 0 <= dt_minute t <= 59 /\ 0 <= dt_second t <= 59.

Section ReportVocabulary.

Context `{Ext : External}.

(** The key constraints of the schema: [Student.id] is a primary key and
    every [Attendance.student_id] refers to a student. *)
Definition foreign_keys_hold (d : DB) : Prop :=
  NoDup (map s_id (students d)) /\
  forall a, a ∈ attendance d -> a_student_id a ∈ map s_id (students d).

End ReportVocabulary.

(** ** The dashboard and the list of today

    The page route [index] and the endpoint [get_today_attendance]. *)

(** Insertion into a list that is ordered by [cmp]. *)
Fixpoint insert_by {A : Type} (cmp : A -> A -> comparison) (x : A) (l : list A)
  : list A :=
  match l with
  | [] => [x]
  | y :: rest =>
      match cmp x y with
      | Gt => y :: insert_by cmp x rest
      | _ => x :: y :: rest
      end
  end.

(** [ORDER BY] under the comparison [cmp]. *)
Definition sort_by {A : Type} (cmp : A -> A -> comparison) (l : list A) : list A :=
  foldr (insert_by cmp) [] l.

(** [timestamp.strftime('%I:%M:%S %p')]: the twelve-hour clock. *)
Definition strftime_clock (t : datetime) : string :=
  let h := dt_hour t mod 12 in
  fmt02 (if h =? 0 then 12 else h) +:+ ":" +:+ fmt02 (dt_minute t) +:+ ":" +:+
  fmt02 (dt_second t) +:+ " " +:+ (if dt_hour t <? 12 then "AM" else "PM").

Section Dashboard.

Context `{Ext : External}.

(** The [stats] dictionary handed to the template of the dashboard. *)
Record dashboard_stats : Type := mkStats {
  total_students : Z;
  present_today : Z;
  absent_today : Z
}.

(** [filter(Attendance.date == today)]. *)
Definition attendance_today (on : date) (att : list Attendance) : list Attendance :=
  filter (fun a => a_date a = on) att.

(** [db.session.query(Attendance.student_id).filter(Attendance.date == today)
    .distinct().count()]. *)
Definition distinct_present (on : date) (att : list Attendance) : nat :=
  length (remove_dups (map a_student_id (attendance_today on att))).

(** The route [/]: the values rendered by [index.html]. *)
Definition index (env : environment) (d : DB) : dashboard_stats :=
  let total_students := Z.of_nat (length (students d)) in
  let students_present_today :=
    Z.of_nat (distinct_present (today env) (attendance d)) in
  {| total_students := total_students;
     present_today := students_present_today;
     absent_today := total_students - students_present_today |}.

(** [order_by(Attendance.timestamp.desc())]. *)
Definition latest_first (x y : Attendance * Student) : comparison :=
  datetime_compare (a_timestamp y.1) (a_timestamp x.1).

(** The [records] of [get_today_attendance]. *)
Definition today_records (env : environment) (d : DB) : list (Attendance * Student) :=
  sort_by latest_first
    (filter (fun x => a_date x.1 = today env) (attendance_join_student d)).

Definition today_entry (x : Attendance * Student) : json :=
  JObj [("name", JStr (s_name x.2));
        ("student_id", JStr (s_student_id x.2));
        ("time", JStr (strftime_clock (a_timestamp x.1)))].

(** GET /api/attendance/today. *)
Definition get_today_attendance (env : environment) (d : DB) : response :=
  JsonResponse (JList (map today_entry (today_records env d))) 200.

(** The rows of a student among a list of rows. *)
Definition rows_of (student_pk : Z) (att : list Attendance) : list Attendance :=
  filter (fun a => a_student_id a = student_pk) att.

(** The [present_count] of every entry of a report, read back from the
    JSON body. *)
Definition present_counts (r : response) : list (option json) :=
  match r with
  | JsonResponse (JList entries) _ => map (json_field "present_count") entries
  | _ => []
  end.

End Dashboard.

(** ** Vocabulary of the statements about the results of recognition *)

Section ResultVocabulary.

Context `{Ext : External}.

(** What the loop reports for one detected face. *)
Definition reported (known_encodings : list encoding) (known_names : list string)
    (face : location * encoding) (r : json) : Prop :=
  exists name : string,
    r = face_result name (compare_face known_encodings face.2 tolerance).2 face.1 /\
    ((compare_face known_encodings face.2 tolerance).1 = None -> name = "Unknown") /\
    (forall idx,
       (compare_face known_encodings face.2 tolerance).1 = Some idx ->
       exists n, known_names !! idx = Some n /\
                 (name = n \/ name = n +:+ " (Marked)")).

(** What one request may add to [Attendance]: rows dated today, for
    pairwise different students, none of whom had a row for today. *)
Definition marks_once (env : environment) (st st' : app_state) : Prop :=
  exists added : list Attendance,
    attendance (db st') = attendance (db st) ++ added /\
    NoDup (map a_student_id added) /\
    Forall (fun a =>
              a_date a = today env /\
              attendance_on (a_student_id a) (today env) (attendance (db st)) = [])
           added.

End ResultVocabulary.

(** ** The handlers with every call allowed to raise

    The reporting handlers run entirely inside [try: ... except Exception
    as e: return jsonify({'error': str(e)}), 400].  Here every call they
    make inside the block may raise: [faults c] is the [str(e)] of the
    exception the call [c] raises, if it does.  For the recognition
    endpoint the fetch of the file parameter, which stands before its
    [try], is given an outcome as well. *)

Inductive report_call : Type :=
  | StudentsQuery              (* Student.query.all() *)
  | RecordsQuery (i : nat)     (* the Attendance query for the i-th student *)
  | PresentDates (i : nat)     (* {r.date.isoformat() for r in records} *)
  | Jsonify                    (* jsonify(report_data) *)
  | ExportQuery                (* the joined, ordered query of the export *)
  | WriteHeader                (* io.StringIO(), csv.writer, the header row *)
  | FormatRow (i : nat)        (* isoformat and strftime of the i-th record *)
  | WriteRow (i : nat)         (* writer.writerow for the i-th record *)
  | BuildResponse.             (* output.seek(0); Response(...) *)

(** The value of a call, or the exception it raises. *)
Definition guard {A : Type} (fault : option string) (a : A) : result A :=
  match fault with
  | Some e => Raise e
  | None => Ok a
  end.



Module Raising.

Section Handlers.

Context `{Ext : External}.

Notation "'let+' x ':=' r 'in' k" := (result_bind r (fun x => k))
  (at level 10, x name, r at level 100, k at level 200, only parsing).

(** The loop over the students of [get_reports_data]. *)
Fixpoint report_loop (faults : report_call -> option string)
    (start_date end_date : date) (att : list Attendance) (i : nat)
    (ss : list Student) : result (list json) :=
  match ss with
  | [] => Ok []
  | s :: rest =>
      let+ records :=
        guard (faults (RecordsQuery i))
              (student_records s start_date end_date att) in
      let+ dates := guard (faults (PresentDates i)) (present_dates records) in
      let+ entries := report_loop faults start_date end_date att (S i) rest in
      Ok (report_entry s dates :: entries)
  end.

Definition reports_body (faults : report_call -> option string)
    (req : request) (d : DB) : result response :=
  let+ range := parse_range req in
  let+ all_students := guard (faults StudentsQuery) (students d) in
  let+ report_data :=
    report_loop faults range.1 range.2 (attendance d) 0 all_students in
  let+ body := guard (faults Jsonify) (JList report_data) in
  Ok (JsonResponse body 200).

(** GET /api/reports. *)
Definition get_reports_data (faults : report_call -> option string)
    (req : request) (d : DB) : response :=
  match reports_body faults req d with
  | Ok r => r
  | Raise e => JsonResponse (error_body e) 400
  end.

(** The loop over the records of [export_csv]. *)
Fixpoint export_loop (faults : report_call -> option string) (i : nat)
    (records : list (Attendance * Student)) : result (list (list string)) :=
  match records with
  | [] => Ok []
  | x :: rest =>
      let+ fields := guard (faults (FormatRow i)) (csv_row x) in
      let+ written := guard (faults (WriteRow i)) fields in
      let+ rows := export_loop faults (S i) rest in
      Ok (written :: rows)
  end.

Definition export_body (faults : report_call -> option string)
    (req : request) (d : DB) : result response :=
  let+ range := parse_range req in
  let+ records :=
    guard (faults ExportQuery) (export_records range.1 range.2 d) in
  let+ header := guard (faults WriteHeader) csv_header in
  let+ rows := export_loop faults 0 records in
  guard (faults BuildResponse)
    (CsvResponse (header :: rows)
       ("attachment;filename=attendance_report_" +:+
        py_str (args_get (args req) "start_date") +:+ "_to_" +:+
        py_str (args_get (args req) "end_date") +:+ ".csv")).

(** GET /api/reports/export. *)
Definition export_csv (faults : report_call -> option string)
    (req : request) (d : DB) : response :=
  match export_body faults req d with
  | Ok r => r
  | Raise e => JsonResponse (error_body e) 400
  end.



(** POST /api/recognize with the outcome of [request.files.get('image')]:
    the call stands before the [try], so its exception leaves the view
    function. *)
Definition recognize (files_fault : option string) (env : environment)
    (req : request) (st : app_state) : result (response * app_state) :=
  match files_fault with
  | Some e => Raise e
  | None => Ok (recognize env req st)
  end.

End Handlers.

End Raising.

(** ** A small instance of the external libraries

    Used to evaluate the handlers on concrete requests.  An uploaded file
    is a marker byte followed by one byte per visible face; the encoding
    of a face is the one-dimensional vector [b/100]; the distance is the
    taxicab metric. *)

Module Sample.

Fixpoint taxicab (a b : list Q) : Q :=
  match a, b with
  | x :: a', y :: b' => (Qabs (x - y) + taxicab a' b')%Q
  | _, _ => 0%Q
  end.

Definition sample_face (i : nat) (b : Byte.byte) : location * list Q :=
  ((0, 10 * Z.of_nat i + 10, 10, 10 * Z.of_nat i),
   [(Z.of_N (Byte.to_N b) # 100)%Q]).

Definition sample_imdecode (bs : list Byte.byte)
  : result (option (list (location * list Q))) :=
  match bs with
  | [] => Raise "(-215:Assertion failed) !buf.empty() in function 'imdecode_'"
  | Byte.xff :: rest => Ok (Some (imap sample_face rest))
  | _ :: _ => Ok None
  end.

#[global] Instance valid_date_dec (d : date) : Decision (valid_date d).
Proof. unfold valid_date. apply _. Defined.

(** A strict reading of ['%Y-%m-%d']: four, two and two digits. *)
Definition sample_strptime (arg : option string) : result date :=
  match arg with
  | None => Raise "strptime() argument 1 must be str, not None"
  | Some s =>
      match parse_iso s with
      | Some d =>
          if decide (valid_date d) then Ok d
          else Raise ("time data '" +:+ s +:+ "' does not match format '%Y-%m-%d'")
      | None => Raise ("time data '" +:+ s +:+ "' does not match format '%Y-%m-%d'")
      end
  end.

(** Two decimals of a percentage, truncated. *)
Definition sample_format (confidence : Q) : string :=
  let hundredths := Qfloor (confidence * 10000) in
  pretty (hundredths / 100) +:+ "." +:+ fmt02 (hundredths mod 100) +:+ "%".

Definition ext : External := {|
  encoding := list Q;
  image := list (location * list Q);
  imdecode := sample_imdecode;
  cvtColor := fun img => Ok img;
  face_locations := fun img => Ok (map fst img);
  face_encodings := fun img _ => Ok (map snd img);
  face_distance := taxicab;
  confidence_of := fun d => (1 - d)%Q;
  format_confidence := sample_format;
  default_status := "Present";
  strptime_date := sample_strptime
|}.

#[local] Existing Instance ext.

Definition asha : Student :=
  {| s_id := 1; s_student_id := "S001"; s_name := "Asha" |}.
Definition bina : Student :=
  {| s_id := 2; s_student_id := "S002"; s_name := "Bina" |}.

Definition monday : date := {| year := 2024; month := 3; day := 4 |}.
Definition tuesday : date := {| year := 2024; month := 3; day := 5 |}.

Definition at_nine (d : date) (minute : Z) : datetime :=
  {| dt_date := d; dt_hour := 9; dt_minute := minute;
     dt_second := 0; dt_microsecond := 0 |}.

Definition gallery : DB :=
  {| students := [asha; bina];
     faces := [{| f_student_id := 1; f_encoding := [(1 # 10)%Q] |};
               {| f_student_id := 2; f_encoding := [(3 # 10)%Q] |}];
     attendance := [] |}.

(** Two students enrolled with the same encoding. *)
Definition twins : list (list Q * Z * string) :=
  [([(1 # 10)%Q], 1, "Asha"); ([(1 # 10)%Q], 2, "Bina")].

Definition start : app_state := {| db := gallery; log := [] |}.

Definition calm (d : date) : environment :=
  {| today := d;
     utcnow := fun i => at_nine d (Z.of_nat i);
     known_faces_error := None;
     lookup_error := fun _ => None;
     commit_error := fun _ => None |}.

Definition locked (d : date) : environment :=
  {| today := d;
     utcnow := fun i => at_nine d (Z.of_nat i);
     known_faces_error := None;
     lookup_error := fun _ => None;
     commit_error := fun _ => Some "database is locked" |}.

(** A picture of Asha, a picture of a stranger, a file that is no image,
    an empty file. *)
Definition picture_of_asha : upload := {| read := Ok [Byte.xff; Byte.x0a] |}.
Definition picture_of_stranger : upload := {| read := Ok [Byte.xff; Byte.x5a] |}.
Definition text_file : upload := {| read := Ok [Byte.x68; Byte.x69] |}.
Definition empty_file : upload := {| read := Ok [] |}.

Definition post (file : upload) : request :=
  {| files_image := Some file; args := [] |}.

Definition get_range (start_date end_date : string) : request :=
  {| files_image := None;
     args := [("start_date", start_date); ("end_date", end_date)] |}.

(** The store after Asha was seen on Monday and Tuesday and Bina on
    Tuesday. *)
Definition week : DB :=
  {| students := [asha; bina];
     faces := faces gallery;
     attendance :=
       [{| a_student_id := 1; a_date := monday;
           a_timestamp := at_nine monday 0; a_status := "Present" |};
        {| a_student_id := 1; a_date := tuesday;
           a_timestamp := at_nine tuesday 1; a_status := "Present" |};
        {| a_student_id := 2; a_date := tuesday;
           a_timestamp := at_nine tuesday 0; a_status := "Present" |}] |}.

(** The gallery as the recognition loop sees it, and one bounding box. *)
Definition known_encodings0 : list (list Q) := [[(1 # 10)%Q]; [(3 # 10)%Q]].
Definition known_student_ids0 : list Z := [1; 2].
Definition known_names0 : list string := ["Asha"; "Bina"].
Definition box0 : location := (0, 10, 10, 0).

End Sample.

(** ** Properties of the face matcher *)

Section MatcherProperties.

Context `{Ext : External}.

Lemma Qltb_lt (x y : Q) : Qltb x y = true <-> (x < y)%Q.
Proof.
  unfold Qltb. rewrite negb_true_iff, <- not_true_iff_false, Qle_bool_iff.
  split; [apply Qnot_le_lt | apply Qlt_not_le].
Qed.

Lemma Qltb_ge (x y : Q) : Qltb x y = false <-> (y <= x)%Q.
Proof.
  unfold Qltb. rewrite negb_false_iff. apply Qle_bool_iff.
Qed.

(** The scan returns a distance that is no larger than the running best
    and than every scanned distance, together with a position where it
    was found. *)
Lemma argmin_from_spec (ds : list Q) :
  forall (best_i : nat) (best_d : Q) (k i : nat) (m : Q),
    argmin_from best_i best_d k ds = (i, m) ->
    ((i = best_i /\ m = best_d) \/ (exists j, ds !! j = Some m /\ i = (k + j)%nat)) /\
    (m <= best_d)%Q /\
    (forall d, d ∈ ds -> (m <= d)%Q).
Proof.
  induction ds as [|d rest IH]; intros best_i best_d k i m Hrun; simpl in Hrun.
  - inversion Hrun; subst. split; [by left|]. split; [apply Qle_refl|].
    intros d Hd. by apply elem_of_nil in Hd.
  - destruct (Qltb d best_d) eqn:Hcmp.
    + apply IH in Hrun as (Hpos & Hle & Hall).
      apply Qltb_lt in Hcmp.
      split; [|split].
      * right. destruct Hpos as [[-> ->] | (j & Hj & ->)].
        -- exists 0%nat. split; [done | lia].
        -- exists (S j). split; [done | lia].
      * apply Qle_trans with d; [done | by apply Qlt_le_weak].
      * intros d' Hd'. apply elem_of_cons in Hd' as [-> | Hd']; [done | by apply Hall].
    + apply IH in Hrun as (Hpos & Hle & Hall).
      apply Qltb_ge in Hcmp.
      split; [|split].
      * destruct Hpos as [? | (j & Hj & ->)]; [by left|].
        right. exists (S j). split; [done | lia].
      * done.
      * intros d' Hd'. apply elem_of_cons in Hd' as [-> | Hd'].
        -- by apply Qle_trans with best_d.
        -- by apply Hall.
Qed.

(** The matcher on a non-empty gallery: the selected index holds a
    minimal distance, and it is returned exactly when that distance is
    below the tolerance. *)
Lemma compare_face_spec (known : list encoding) (live : encoding) (tol : Q) :
  known <> [] ->
  exists (i : nat) (k : encoding),
    known !! i = Some k /\
    (forall k', k' ∈ known -> (face_distance k live <= face_distance k' live)%Q) /\
    compare_face known live tol =
      (if Qltb (face_distance k live) tol then Some i else None,
       confidence_of (face_distance k live)).
Proof.
  intros Hne. destruct known as [|k0 rest]; [done|].
  unfold compare_face. simpl.
  destruct (argmin_from 0 (face_distance k0 live) 1
              (map (fun k => face_distance k live) rest)) as [i m] eqn:Hrun.
  apply argmin_from_spec in Hrun as (Hpos & Hle & Hall).
  assert (Hmin : forall k', k' ∈ k0 :: rest -> (m <= face_distance k' live)%Q).
  { intros k' Hk'. apply elem_of_cons in Hk' as [-> | Hk']; [done|].
    apply Hall. apply list_elem_of_fmap. by exists k'. }
  destruct Hpos as [[-> ->] | (j & Hj & ->)].
  - exists 0%nat, k0. split; [done|]. split; [done|].
    by destruct (Qltb (face_distance k0 live) tol).
  - rewrite list_lookup_fmap in Hj.
    destruct (rest !! j) as [k|] eqn:Hk; [|done].
    simpl in Hj. injection Hj as <-.
    exists (S j), k. split; [done|]. split; [done|].
    by destruct (Qltb (face_distance k live) tol).
Qed.

(** C2.  For a non-empty list of known encodings the matcher selects an
    index whose distance to the live encoding is minimal over the list,
    and returns that index as the match if and only if this minimal
    distance is below the tolerance 0.5; when every known encoding is
    farther than 0.5 from the live encoding, it returns no match. *)
Theorem compare_face_min_below_tolerance (known : list encoding) (live : encoding) :
  known <> [] ->
  (exists (i : nat) (k : encoding),
     known !! i = Some k /\
     (forall k', k' ∈ known -> (face_distance k live <= face_distance k' live)%Q) /\
     (forall j, (compare_face known live tolerance).1 = Some j <->
                j = i /\ (face_distance k live < 1 # 2)%Q)) /\
  ((forall k', k' ∈ known -> (1 # 2 < face_distance k' live)%Q) ->
   (compare_face known live tolerance).1 = None).
Proof.
  intros Hne.
  destruct (compare_face_spec known live tolerance Hne) as (i & k & Hi & Hmin & Hres).
  split.
  - exists i, k. split; [done|]. split; [done|].
    intros j. rewrite Hres. simpl.
    destruct (Qltb (face_distance k live) tolerance) eqn:Hcmp.
    + apply Qltb_lt in Hcmp. split.
      * intros [= <-]. done.
      * by intros [-> _].
    + apply Qltb_ge in Hcmp. split; [done|].
      intros [_ Hlt]. exfalso. by eapply Qlt_not_le.
  - intros Hfar. rewrite Hres. simpl.
    destruct (Qltb (face_distance k live) tolerance) eqn:Hcmp; [|done].
    apply Qltb_lt in Hcmp. exfalso.
    apply (Qlt_irrefl (face_distance k live)).
    apply Qlt_trans with (1 # 2); [done|].
    apply Hfar. apply list_elem_of_lookup. by exists i.
Qed.

(** C3 (as amended).  When the gallery holds a student's encoding, the
    library distance is non-negative and zero from an encoding to itself,
    and every stored encoding at distance zero from it belongs to that
    same student, the matcher run on the student's own encoding returns
    an index of that student. *)
Theorem compare_face_own_encoding
    (known_faces : list (encoding * Z * string))
    (pos : nat) (own : encoding) (student_pk : Z) (name : string) :
  (forall a b, (0 <= face_distance a b)%Q) ->
  (face_distance own own == 0)%Q ->
  known_faces !! pos = Some (own, student_pk, name) ->
  (forall i e pk n,
     known_faces !! i = Some (e, pk, n) ->
     (face_distance e own == 0)%Q -> pk = student_pk) ->
  exists i,
    (compare_face (map (fun f => f.1.1) known_faces) own tolerance).1 = Some i /\
    map (fun f => f.1.2) known_faces !! i = Some student_pk.
Proof.
  intros Hnonneg Hself Hpos Honly.
  set (known := map (fun f : encoding * Z * string => f.1.1) known_faces).
  assert (Hin : own ∈ known).
  { apply list_elem_of_fmap. exists (own, student_pk, name). split; [done|].
    apply list_elem_of_lookup. by exists pos. }
  assert (Hne : known <> []).
  { intros Hnil. rewrite Hnil in Hin. by apply elem_of_nil in Hin. }
  destruct (compare_face_spec known own tolerance Hne) as (i & k & Hi & Hmin & Hres).
  assert (Hzero : (face_distance k own == 0)%Q).
  { apply Qle_antisym; [|apply Hnonneg].
    rewrite <- Hself. by apply Hmin. }
  exists i. rewrite Hres. simpl.
  assert (Hlt : Qltb (face_distance k own) tolerance = true).
  { apply Qltb_lt. rewrite Hzero. reflexivity. }
  rewrite Hlt. split; [done|].
  unfold known in Hi. rewrite list_lookup_fmap in Hi.
  rewrite list_lookup_fmap.
  destruct (known_faces !! i) as [[[e pk] n]|] eqn:Hrow; [|done].
  simpl in Hi. injection Hi as ->. simpl.
  f_equal. by eapply Honly.
Qed.

End MatcherProperties.

(** ** Properties of the recognition endpoint *)

Section RecognizeProperties.

Context `{Ext : External}.

Lemma attendance_on_app (pk : Z) (d : date) (l1 l2 : list Attendance) :
  attendance_on pk d (l1 ++ l2) = attendance_on pk d l1 ++ attendance_on pk d l2.
Proof. unfold attendance_on. apply filter_app. Qed.

Lemma attendance_on_one_hit (pk : Z) (d : date) (a : Attendance) :
  a_student_id a = pk -> a_date a = d -> attendance_on pk d [a] = [a].
Proof.
  intros Hs Hd. unfold attendance_on. rewrite filter_cons_True; done.
Qed.

Lemma attendance_on_one_miss (pk : Z) (d : date) (a : Attendance) :
  ~ (a_student_id a = pk /\ a_date a = d) -> attendance_on pk d [a] = [].
Proof.
  intros Hne. unfold attendance_on. rewrite filter_cons_False; done.
Qed.

(** Appending a row whose key is absent keeps the invariant. *)
Lemma one_row_per_day_insert (att : list Attendance) (a : Attendance) :
  attendance_on (a_student_id a) (a_date a) att = [] ->
  one_row_per_day att -> one_row_per_day (att ++ [a]).
Proof.
  intros Habsent Hinv pk d. rewrite attendance_on_app, length_app.
  destruct (decide (a_student_id a = pk /\ a_date a = d)) as [[<- <-] | Hne].
  - rewrite Habsent, attendance_on_one_hit by done. simpl. lia.
  - rewrite attendance_on_one_miss by done. simpl.
    specialize (Hinv pk d). lia.
Qed.

Lemma one_row_per_day_nil : one_row_per_day [].
Proof. intros pk d. simpl. lia. Qed.

Lemma marks_step_refl (env : environment) (matched : Z -> Prop) (st : app_state) :
  marks_step env matched st st.
Proof.
  repeat split; [|done]. exists []. by rewrite app_nil_r.
Qed.

Lemma marks_step_trans (env : environment) (matched : Z -> Prop)
    (st1 st2 st3 : app_state) :
  marks_step env matched st1 st2 -> marks_step env matched st2 st3 ->
  marks_step env matched st1 st3.
Proof.
  intros (Hs1 & Hf1 & (add1 & Ha1 & Hall1) & Hinv1)
         (Hs2 & Hf2 & (add2 & Ha2 & Hall2) & Hinv2).
  split; [congruence|]. split; [congruence|]. split; [|auto].
  exists (add1 ++ add2). split.
  - by rewrite Ha2, Ha1, app_assoc.
  - by apply Forall_app.
Qed.

Lemma marks_step_mono (env : environment) (matched matched' : Z -> Prop)
    (st st' : app_state) :
  (forall pk, matched pk -> matched' pk) ->
  marks_step env matched st st' -> marks_step env matched' st st'.
Proof.
  intros Hsub (Hs & Hf & (added & Ha & Hall) & Hinv).
  repeat split; try done. exists added. split; [done|].
  eapply Forall_impl; [exact Hall|]. intros a [? ?]. auto.
Qed.

(** Writing to the log leaves the store alone. *)
Lemma marks_step_log (env : environment) (matched : Z -> Prop)
    (msg : string) (st st' : app_state) :
  marks_step env matched st st' -> marks_step env matched st (log_error msg st').
Proof. done. Qed.

Lemma head_attendance_on_None (pk : Z) (d : date) (att : list Attendance) :
  head (attendance_on pk d att) = None -> attendance_on pk d att = [].
Proof. by destruct (attendance_on pk d att). Qed.

(** One iteration of the loop. *)
Lemma process_face_step (env : environment)
    (known_encodings : list encoding) (known_student_ids : list Z)
    (known_names : list string) (i : nat) (loc : location)
    (live : encoding) (st : app_state) :
  marks_step env (matcher_picks known_encodings known_student_ids live) st
    (process_face env known_encodings known_student_ids known_names i loc live st).2.
Proof.
  unfold process_face.
  destruct (compare_face known_encodings live tolerance) as [match_idx confidence] eqn:Hcmp.
  destruct match_idx as [idx|]; [|apply marks_step_refl].
  unfold bind, lift, ret, py_index, query_already_marked, mark_attendance.
  destruct (known_names !! idx) as [name|]; [|apply marks_step_refl].
  destruct (known_student_ids !! idx) as [pk|] eqn:Hpk; [|apply marks_step_refl].
  destruct (lookup_error env i); [apply marks_step_refl|].
  destruct (head _) as [row|] eqn:Hhead; [apply marks_step_refl|].
  apply head_attendance_on_None in Hhead.
  destruct (commit_error env i); [apply marks_step_log, marks_step_refl|].
  simpl. repeat split; simpl.
  - eexists [_]. split; [done|].
    apply Forall_singleton. simpl. split; [done|].
    exists idx. by rewrite Hcmp.
  - by apply one_row_per_day_insert.
Qed.

Lemma recognize_loop_step (env : environment)
    (known_encodings : list encoding) (known_student_ids : list Z)
    (known_names : list string) (detected : list (location * encoding)) :
  forall (i : nat) (st : app_state),
    marks_step env (matched_among known_encodings known_student_ids detected) st
      (recognize_loop env known_encodings known_student_ids known_names
         i detected st).2.
Proof.
  induction detected as [|[loc live] rest IH]; intros i st; simpl.
  - apply marks_step_refl.
  - unfold bind at 1.
    pose proof (process_face_step env known_encodings known_student_ids
                  known_names i loc live st) as Hhead.
    destruct (process_face _ _ _ _ _ _ _ st) as [[r|e] st1]; simpl in Hhead.
    + unfold bind at 1. specialize (IH (S i) st1).
      assert (Hboth : marks_step env
                (matched_among known_encodings known_student_ids
                   ((loc, live) :: rest)) st
                (recognize_loop env known_encodings known_student_ids
                   known_names (S i) rest st1).2).
      { eapply marks_step_trans.
        - eapply marks_step_mono; [|exact Hhead].
          intros pk Hpk. exists loc, live. split; [apply elem_of_cons; by left | done].
        - eapply marks_step_mono; [|exact IH].
          intros pk (loc' & live' & Hin & Hpk). exists loc', live'.
          split; [apply elem_of_cons; by right | done]. }
      by destruct (recognize_loop _ _ _ _ _ rest st1) as [[rs|e] st2].
    + eapply marks_step_mono; [|exact Hhead].
      intros pk Hpk. exists loc, live. split; [apply elem_of_cons; by left | done].
Qed.

(** The whole endpoint. *)
Lemma recognize_step (env : environment) (req : request) (st : app_state) :
  marks_step env (matched_in_request req (db st)) st (recognize env req st).2.
Proof.
  unfold recognize.
  destruct (files_image req) as [file|] eqn:Hfile; [|apply marks_step_refl].
  assert (Hbody : marks_step env (matched_in_request req (db st)) st
                    (recognize_body env file st).2).
  { unfold recognize_body, bind, lift, ret, query_already_marked, query_known_faces.
    destruct (read file) as [in_memory|] eqn:Hread; [|apply marks_step_refl].
    destruct (imdecode in_memory) as [[img|]|] eqn:Hdec; try apply marks_step_refl.
    destruct (cvtColor img) as [rgb_img|] eqn:Hcvt; [|apply marks_step_refl].
    destruct (face_locations rgb_img) as [locations|] eqn:Hloc; [|apply marks_step_refl].
    destruct (face_encodings rgb_img locations) as [live_encodings|] eqn:Henc;
      [|apply marks_step_refl].
    destruct (known_faces_error env); [apply marks_step_refl|].
    destruct (known_faces_rows (db st)) as [|kf rest] eqn:Hrows; [apply marks_step_refl|].
    match goal with
    | |- context [recognize_loop ?e ?ke ?ki ?kn ?i ?det st] =>
        pose proof (recognize_loop_step e ke ki kn det i st) as Hloop;
        destruct (recognize_loop e ke ki kn i det st) as [[rs|err] st1]
    end; simpl in *.
    - eapply marks_step_mono; [|exact Hloop].
      intros pk Hpk. exists file, in_memory, img, rgb_img, locations, live_encodings.
      by rewrite Hrows.
    - eapply marks_step_mono; [|exact Hloop].
      intros pk Hpk. exists file, in_memory, img, rgb_img, locations, live_encodings.
      by rewrite Hrows. }
  destruct (recognize_body env file st) as [[resp|e] st1]; simpl in *; [done|].
  by apply marks_step_log.
Qed.

Lemma run_recognize_invariant (reqs : list (environment * request)) :
  forall st : app_state,
    one_row_per_day (attendance (db st)) ->
    one_row_per_day (attendance (db (run_recognize reqs st))).
Proof.
  induction reqs as [|[env req] rest IH]; intros st Hinv; simpl; [done|].
  apply IH. by apply (recognize_step env req st).
Qed.

(** A matched face whose lookup and commit both succeed leaves a row for
    the student and today in the table. *)
Lemma process_face_marked (env : environment)
    (known_encodings : list encoding) (known_student_ids : list Z)
    (known_names : list string) (i : nat) (loc : location)
    (live : encoding) (st : app_state) (idx : nat) (name : string) (pk : Z) :
  (compare_face known_encodings live tolerance).1 = Some idx ->
  known_names !! idx = Some name ->
  known_student_ids !! idx = Some pk ->
  lookup_error env i = None ->
  commit_error env i = None ->
  attendance_on pk (today env)
    (attendance (db (process_face env known_encodings known_student_ids
                       known_names i loc live st).2)) <> [].
Proof.
  intros Hcmp Hname Hpk Hlookup Hcommit.
  unfold process_face.
  destruct (compare_face known_encodings live tolerance) as [match_idx confidence].
  simpl in Hcmp. subst match_idx.
  unfold bind, lift, ret, py_index, query_already_marked, mark_attendance.
  rewrite Hname, Hpk, Hlookup.
  destruct (head _) as [row|] eqn:Hhead.
  - simpl. intros Hnil. by rewrite Hnil in Hhead.
  - rewrite Hcommit. simpl. rewrite attendance_on_app.
    rewrite attendance_on_one_hit by done.
    intros Hnil. by apply app_eq_nil in Hnil as [_ ?].
Qed.

(** C1.  Starting from a table with at most one row per student and date,
    any sequence of recognition requests leaves at most one row per
    student and date; and when two faces are matched to the same student
    on the same date, with the lookups and commits succeeding, exactly
    one row for that student and date is in the table afterwards. *)
Theorem recognize_one_row_per_student_and_date
    (reqs : list (environment * request)) (st : app_state) :
  one_row_per_day (attendance (db st)) ->
  one_row_per_day (attendance (db (run_recognize reqs st))) /\
  forall (env1 env2 : environment)
         (known_encodings : list encoding) (known_student_ids : list Z)
         (known_names : list string) (i1 i2 : nat) (loc1 loc2 : location)
         (live1 live2 : encoding) (idx1 idx2 : nat) (name1 name2 : string)
         (pk : Z),
    (compare_face known_encodings live1 tolerance).1 = Some idx1 ->
    (compare_face known_encodings live2 tolerance).1 = Some idx2 ->
    known_names !! idx1 = Some name1 ->
    known_names !! idx2 = Some name2 ->
    known_student_ids !! idx1 = Some pk ->
    known_student_ids !! idx2 = Some pk ->
    today env2 = today env1 ->
    lookup_error env1 i1 = None -> commit_error env1 i1 = None ->
    lookup_error env2 i2 = None -> commit_error env2 i2 = None ->
    let st1 := (process_face env1 known_encodings known_student_ids
                  known_names i1 loc1 live1 st).2 in
    let st2 := (process_face env2 known_encodings known_student_ids
                  known_names i2 loc2 live2 st1).2 in
    length (attendance_on pk (today env1) (attendance (db st2))) = 1%nat.
Proof.
  intros Hinv. split; [by apply run_recognize_invariant|].
  intros env1 env2 kenc kids knames i1 i2 loc1 loc2 live1 live2 idx1 idx2
         name1 name2 pk Hc1 Hc2 Hn1 Hn2 Hp1 Hp2 Htoday Hl1 Hk1 Hl2 Hk2 st1 st2.
  pose proof (process_face_step env1 kenc kids knames i1 loc1 live1 st)
    as (_ & _ & _ & Hinv1).
  pose proof (process_face_step env2 kenc kids knames i2 loc2 live2 st1)
    as (_ & _ & _ & Hinv2).
  fold st1 in Hinv1. fold st2 in Hinv2.
  pose proof (Hinv2 (Hinv1 Hinv) pk (today env1)) as Hmost.
  pose proof (process_face_marked env2 kenc kids knames i2 loc2 live2 st1
                idx2 name2 pk Hc2 Hn2 Hp2 Hl2 Hk2) as Hleast.
  fold st2 in Hleast. rewrite Htoday in Hleast.
  destruct (attendance_on pk (today env1) (attendance (db st2))); [done|].
  simpl in *. lia.
Qed.

(** C6.  For a matched student with no row for today: when the insert
    raises, the store is left as it was, the error is written to the log
    and the face is reported under the student's plain name; when the
    insert succeeds, the row is appended and the reported name ends in
    " (Marked)".  This holds of every iteration of the loop, and of the
    response of the endpoint to a picture showing that one face: it is
    answered 200 with the name in the result in both cases. *)
Theorem insert_failure_rolled_back (env : environment)
    (known_encodings : list encoding) (known_student_ids : list Z)
    (known_names : list string) (i : nat) (top rgt bottom lft : Z)
    (live : encoding) (st : app_state)
    (idx : nat) (confidence : Q) (name : string) (pk : Z) :
  compare_face known_encodings live tolerance = (Some idx, confidence) ->
  known_names !! idx = Some name ->
  known_student_ids !! idx = Some pk ->
  lookup_error env i = None ->
  attendance_on pk (today env) (attendance (db st)) = [] ->
  let entry (reported_name : string) : json :=
    JObj [("name", JStr reported_name);
          ("confidence", JStr (format_confidence confidence));
          ("location", JList [JInt top; JInt rgt; JInt bottom; JInt lft])] in
  let rolled_back (e : string) : app_state :=
    {| db := db st; log := log st ++ ["Error marking attendance: " +:+ e] |} in
  let marked : app_state :=
    {| db := {| students := students (db st);
                faces := faces (db st);
                attendance := attendance (db st) ++
                  [{| a_student_id := pk;
                      a_date := today env;
                      a_timestamp := utcnow env i;
                      a_status := default_status |}] |};
       log := log st |} in
  (forall e, commit_error env i = Some e ->
     process_face env known_encodings known_student_ids known_names i
         (top, rgt, bottom, lft) live st =
       (Ok (entry name), rolled_back e)) /\
  (commit_error env i = None ->
     process_face env known_encodings known_student_ids known_names i
         (top, rgt, bottom, lft) live st =
       (Ok (entry (name +:+ " (Marked)")), marked)) /\
  (forall (req : request) (file : upload) (in_memory : list Byte.byte)
          (img rgb_img : image),
     i = 0%nat ->
     known_encodings = map (fun f => f.1.1) (known_faces_rows (db st)) ->
     known_student_ids = map (fun f => f.1.2) (known_faces_rows (db st)) ->
     known_names = map (fun f => f.2) (known_faces_rows (db st)) ->
     files_image req = Some file ->
     read file = Ok in_memory ->
     imdecode in_memory = Ok (Some img) ->
     cvtColor img = Ok rgb_img ->
     face_locations rgb_img = Ok [(top, rgt, bottom, lft)] ->
     face_encodings rgb_img [(top, rgt, bottom, lft)] = Ok [live] ->
     known_faces_error env = None ->
     recognize env req st =
       match commit_error env 0 with
       | Some e =>
           (JsonResponse (JObj [("results", JList [entry name])]) 200,
            rolled_back e)
       | None =>
           (JsonResponse
              (JObj [("results", JList [entry (name +:+ " (Marked)")])]) 200,
            marked)
       end).
Proof.
  intros Hcmp Hname Hpk Hlookup Habsent entry rolled_back marked.
  assert (Hfail : forall e,
    commit_error env i = Some e ->
    process_face env known_encodings known_student_ids known_names i
        (top, rgt, bottom, lft) live st =
      (Ok (entry name), rolled_back e)).
  { intros e Hcommit. unfold process_face. rewrite Hcmp.
    unfold bind, lift, ret, py_index, query_already_marked, mark_attendance.
    by rewrite Hname, Hpk, Hlookup, Habsent, Hcommit. }
  assert (Hgood :
    commit_error env i = None ->
    process_face env known_encodings known_student_ids known_names i
        (top, rgt, bottom, lft) live st =
      (Ok (entry (name +:+ " (Marked)")), marked)).
  { intros Hcommit. unfold process_face. rewrite Hcmp.
    unfold bind, lift, ret, py_index, query_already_marked, mark_attendance.
    by rewrite Hname, Hpk, Hlookup, Habsent, Hcommit. }
  split; [exact Hfail|]. split; [exact Hgood|].
  intros req file in_memory img rgb_img -> Hkenc Hkids Hknames
         Hfile Hread Hdec Hcvt Hloc Henc Hquery.
  unfold recognize, recognize_body, bind at 1 2 3 4 5 6, lift, ret,
         query_known_faces.
  rewrite Hfile, Hread, Hdec, Hcvt, Hloc, Henc, Hquery.
  destruct (known_faces_rows (db st)) as [|kf rest] eqn:Hrows.
  { subst known_names. done. }
  cbv zeta. rewrite <- Hkenc, <- Hkids, <- Hknames.
  change (zip [(top, rgt, bottom, lft)] [live])
    with [((top, rgt, bottom, lft), live)].
  cbn [recognize_loop]. unfold bind, ret.
  destruct (commit_error env 0) as [e|] eqn:Hcommit.
  - rewrite (Hfail e eq_refl). done.
  - rewrite (Hgood eq_refl). done.
Qed.

(** C7 (as amended).  A request without the [image] file is answered 400
    with a JSON error, and so is an upload for which the decoder returns
    no image ([cv2.imdecode] gives [None]); neither touches the state. *)
Theorem recognize_bad_request (env : environment) (req : request) (st : app_state) :
  (files_image req = None ->
   recognize env req st =
     (JsonResponse (JObj [("error", JStr "no image uploaded")]) 400, st)) /\
  (forall file in_memory,
     files_image req = Some file ->
     read file = Ok in_memory ->
     imdecode in_memory = Ok None ->
     recognize env req st =
       (JsonResponse (JObj [("error", JStr "could not decode image")]) 400, st)).
Proof.
  split.
  - intros Hfile. unfold recognize. by rewrite Hfile.
  - intros file in_memory Hfile Hread Hdec.
    unfold recognize, recognize_body, bind, lift, ret.
    by rewrite Hfile, Hread, Hdec.
Qed.










(** C9.  With no stored face, a request whose image decodes and whose
    faces are detected is answered 200 with an empty result list and the
    detected locations, however many they are, and the state (hence the
    attendance table) is left as it was. *)
Theorem recognize_empty_gallery (env : environment) (req : request)
    (st : app_state) (file : upload) (in_memory : list Byte.byte)
    (img rgb_img : image) (locations : list location)
    (live_encodings : list encoding) :
  faces (db st) = [] ->
  files_image req = Some file ->
  read file = Ok in_memory ->
  imdecode in_memory = Ok (Some img) ->
  cvtColor img = Ok rgb_img ->
  face_locations rgb_img = Ok locations ->
  face_encodings rgb_img locations = Ok live_encodings ->
  known_faces_error env = None ->
  recognize env req st =
    (JsonResponse
       (JObj [("results", JList []);
              ("locations", JList (map location_json locations))]) 200,
     st).
Proof.
  intros Hfaces Hfile Hread Hdec Hcvt Hloc Henc Hquery.
  unfold recognize, recognize_body, bind, lift, ret, query_known_faces.
  rewrite Hfile, Hread, Hdec, Hcvt, Hloc, Henc, Hquery.
  unfold known_faces_rows. by rewrite Hfaces.
Qed.


End RecognizeProperties.

(** ** Properties of the reporting endpoints *)

Section ReportProperties.

Context `{Ext : External}.

Lemma char_digit_digit_char (n : Z) :
  char_digit (digit_char n) = Some (n mod 10).
Proof.
  unfold char_digit, digit_char.
  pose proof (Z.mod_pos_bound n 10 ltac:(lia)) as Hb.
  rewrite nat_ascii_embedding by lia.
  replace (Z.of_nat (48 + Z.to_nat (n mod 10))) with (48 + n mod 10) by lia.
  destruct (48 <=? 48 + n mod 10) eqn:H1; [|lia].
  destruct (48 + n mod 10 <=? 57) eqn:H2; [|lia].
  simpl. f_equal. lia.
Qed.

Lemma parse_iso_isoformat (d : date) :
  1 <= year d <= 9999 -> 1 <= month d <= 12 -> 1 <= day d <= 31 ->
  parse_iso (isoformat d) = Some d.
Proof.
  intros Hy Hm Hd. destruct d as [y m dd].
  unfold isoformat, fmt04, fmt02.
  cbv beta iota fix delta [append year month day parse_iso].
  rewrite !Ascii.eqb_refl. cbn [andb].
  rewrite !char_digit_digit_char. cbn [mbind option_bind].
  simpl in Hy, Hm, Hd.
  f_equal. f_equal; Z.div_mod_to_equations; lia.
Qed.

Lemma valid_date_day (d : date) : valid_date d -> 1 <= day d <= 31.
Proof.
  intros (_ & _ & Hd). unfold days_in_month in Hd.
  repeat case_match; lia.
Qed.

(** The ISO form identifies the date. *)
Lemma isoformat_inj (a b : date) :
  valid_date a -> valid_date b -> isoformat a = isoformat b -> a = b.
Proof.
  intros Ha Hb Heq.
  assert (Hpa : parse_iso (isoformat a) = Some a).
  { destruct Ha as (? & ? & ?). apply parse_iso_isoformat; try done.
    by apply valid_date_day. }
  assert (Hpb : parse_iso (isoformat b) = Some b).
  { destruct Hb as (? & ? & ?). apply parse_iso_isoformat; try done.
    by apply valid_date_day. }
  congruence.
Qed.

(** The set of ISO strings of a list of valid dates has as many elements
    as the list has distinct dates. *)
Lemma size_iso_set (dates : list date) :
  Forall valid_date dates ->
  size (list_to_set (map isoformat dates) : gset string) =
  length (remove_dups dates).
Proof.
  intros Hvalid.
  assert (Hset : (list_to_set (map isoformat dates) : gset string) =
                 list_to_set (map isoformat (remove_dups dates))).
  { apply set_eq. intros x. rewrite !elem_of_list_to_set, !list_elem_of_fmap.
    split; intros (dt & -> & Hin); exists dt; split; try done;
      by apply elem_of_remove_dups. }
  rewrite Hset, size_list_to_set, length_map; [done|].
  apply NoDup_fmap_2_strong; [|apply NoDup_remove_dups].
  intros a b Ha Hb Heq.
  rewrite elem_of_remove_dups in Ha, Hb.
  rewrite Forall_forall in Hvalid.
  apply isoformat_inj; auto.
Qed.

Lemma date_leb_in_range (start_date end_date : date) (r : Attendance) :
  in_range start_date end_date r = true <->
  date_leb start_date (a_date r) = true /\ date_leb (a_date r) end_date = true.
Proof. unfold in_range. apply andb_true_iff. Qed.

Lemma parse_range_ok (req : request) (start_date end_date : date) :
  strptime_date (args_get (args req) "start_date") = Ok start_date ->
  strptime_date (args_get (args req) "end_date") = Ok end_date ->
  parse_range req = Ok (start_date, end_date).
Proof. intros Hs He. unfold parse_range, result_bind. by rewrite Hs, He. Qed.

(** C5.  For a range whose two dates parse, the report has one entry per
    student, in order, and the [present_count] of a student's entry is
    the number of distinct dates of the range on which the student has an
    attendance row. *)
Theorem report_present_count (req : request) (d : DB) (start_date end_date : date) :
  (forall a, a ∈ attendance d -> valid_date (a_date a)) ->
  strptime_date (args_get (args req) "start_date") = Ok start_date ->
  strptime_date (args_get (args req) "end_date") = Ok end_date ->
  exists entries : list json,
    get_reports_data req d = JsonResponse (JList entries) 200 /\
    length entries = length (students d) /\
    forall (i : nat) (s : Student),
      students d !! i = Some s ->
      exists (entry : json) (dates : list date),
        entries !! i = Some entry /\
        json_field "id" entry = Some (JInt (s_id s)) /\
        json_field "present_count" entry = Some (JInt (Z.of_nat (length dates))) /\
        NoDup dates /\
        forall dt : date,
          dt ∈ dates <->
          date_leb start_date dt = true /\ date_leb dt end_date = true /\
          exists r, r ∈ attendance d /\ a_student_id r = s_id s /\ a_date r = dt.
Proof.
  intros Hvalid Hs He.
  exists (report_data start_date end_date d).
  unfold get_reports_data. rewrite (parse_range_ok req start_date end_date Hs He).
  split; [done|]. unfold report_data. split; [by rewrite length_map|].
  intros i s Hi.
  set (records := student_records s start_date end_date (attendance d)).
  exists (report_entry s (present_dates records)),
         (remove_dups (map a_date records)).
  split; [by rewrite list_lookup_fmap, Hi|].
  split; [done|]. split.
  - simpl. do 3 f_equal. unfold present_dates.
    rewrite <- size_iso_set.
    + by rewrite <- list_fmap_compose.
    + apply Forall_forall. intros dt Hdt.
      apply list_elem_of_fmap in Hdt as (r & -> & Hr).
      apply Hvalid. unfold records, student_records in Hr.
      by apply list_elem_of_filter in Hr as [_ ?].
  - split; [apply NoDup_remove_dups|].
    intros dt. rewrite elem_of_remove_dups, list_elem_of_fmap.
    unfold records, student_records. split.
    + intros (r & -> & Hr). apply list_elem_of_filter in Hr as [[Hsid Hrange] Hin].
      apply Is_true_true, date_leb_in_range in Hrange as [? ?].
      repeat split; try done. by exists r.
    + intros (Hlo & Hhi & r & Hin & Hsid & <-).
      exists r. split; [done|]. apply list_elem_of_filter.
      split; [|done]. split; [done|].
      apply Is_true_true, date_leb_in_range. done.
Qed.

(** Ordering rearranges the records and loses none. *)
Lemma insert_ordered_perm (x : Attendance * Student) (l : list (Attendance * Student)) :
  Permutation (insert_ordered x l) (x :: l).
Proof.
  induction l as [|y rest IH]; simpl; [done|].
  destruct (export_compare x y); try done.
  rewrite IH. apply perm_swap.
Qed.

Lemma order_by_perm (l : list (Attendance * Student)) : Permutation (order_by l) l.
Proof.
  unfold order_by. induction l as [|x rest IH]; simpl; [done|].
  rewrite insert_ordered_perm. by apply perm_skip.
Qed.

Lemma filter_no_student (pk : Z) (ss : list Student) :
  pk ∉ map s_id ss -> filter (fun s => s_id s = pk) ss = [].
Proof.
  induction ss as [|s rest IH]; intros Hnot; [done|].
  simpl in Hnot. apply not_elem_of_cons in Hnot as [Hne Hrest].
  rewrite filter_cons_False by done. by apply IH.
Qed.

(** A primary key selects exactly one student. *)
Lemma filter_one_student (pk : Z) (ss : list Student) :
  NoDup (map s_id ss) -> pk ∈ map s_id ss ->
  length (filter (fun s => s_id s = pk) ss) = 1%nat.
Proof.
  induction ss as [|s rest IH]; intros Hnodup Hin; simpl in *.
  - by apply elem_of_nil in Hin.
  - apply NoDup_cons in Hnodup as [Hfresh Hnodup].
    destruct (decide (s_id s = pk)) as [Heq | Hne].
    + rewrite filter_cons_True by done. simpl.
      rewrite filter_no_student; [done|]. by rewrite <- Heq.
    + rewrite filter_cons_False by done.
      apply elem_of_cons in Hin as [Heq | Hin]; [congruence|].
      by apply IH.
Qed.

Lemma filter_pairs_of_row (P : Attendance -> bool) (a : Attendance) (ss : list Student) :
  filter (fun x : Attendance * Student => P x.1) (map (fun s => (a, s)) ss) =
  if P a then map (fun s => (a, s)) ss else [].
Proof.
  induction ss as [|s rest IH]; simpl.
  - by destruct (P a).
  - destruct (P a) eqn:HP.
    + rewrite filter_cons_True by (simpl; rewrite HP; simpl; tauto). by rewrite IH.
    + rewrite filter_cons_False by (simpl; rewrite HP; simpl; tauto). by rewrite IH.
Qed.

(** Under the key constraints the join has one record per attendance row. *)
Lemma join_filter_length (P : Attendance -> bool) (ss : list Student)
    (att : list Attendance) :
  NoDup (map s_id ss) ->
  (forall a, a ∈ att -> a_student_id a ∈ map s_id ss) ->
  length (filter (fun x : Attendance * Student => P x.1)
            (flat_map (fun a =>
               map (fun s => (a, s))
                   (filter (fun s => s_id s = a_student_id a) ss)) att)) =
  length (filter (fun a => P a) att).
Proof.
  intros Hnodup. induction att as [|a rest IH]; intros Hfk; [done|].
  simpl. rewrite filter_app, length_app, filter_pairs_of_row.
  rewrite IH by (intros a' Ha'; apply Hfk, elem_of_cons; by right).
  destruct (P a) eqn:HP.
  - rewrite filter_cons_True by (rewrite HP; simpl; tauto).
    rewrite length_map, filter_one_student; [done | done |].
    apply Hfk, elem_of_cons. by left.
  - rewrite filter_cons_False by (rewrite HP; simpl; tauto). done.
Qed.

(** Every row of the gallery query carries the key of a student. *)
Lemma known_faces_student (d : DB) (idx : nat) (pk : Z) :
  map (fun f : encoding * Z * string => f.1.2) (known_faces_rows d) !! idx = Some pk ->
  pk ∈ map s_id (students d).
Proof.
  rewrite list_lookup_fmap. intros Hrow.
  destruct (known_faces_rows d !! idx) as [[[e pk'] n]|] eqn:Hidx; [|done].
  simpl in Hrow. injection Hrow as ->.
  apply list_elem_of_lookup_2, list_elem_of_In in Hidx.
  unfold known_faces_rows in Hidx.
  apply in_flat_map in Hidx as (f & _ & Hin).
  apply in_map_iff in Hin as (s & [= _ <- _] & Hs).
  apply list_elem_of_In, list_elem_of_filter in Hs as [_ Hs].
  apply list_elem_of_fmap. by exists s.
Qed.

(** The recognition endpoint keeps the key constraints: it marks only
    students it found through the join with [Student]. *)
Lemma recognize_keeps_foreign_keys (env : environment) (req : request)
    (st : app_state) :
  foreign_keys_hold (db st) -> foreign_keys_hold (db (recognize env req st).2).
Proof.
  intros [Hpk Hfk].
  destruct (recognize_step env req st) as (Hs & _ & (added & Hatt & Hadded) & _).
  split; rewrite Hs; [done|].
  intros a Ha. rewrite Hatt in Ha. apply elem_of_app in Ha as [Ha | Ha]; [by apply Hfk|].
  rewrite Forall_forall in Hadded.
  destruct (Hadded a Ha) as [_ Hmatched].
  destruct Hmatched as (? & ? & ? & ? & ? & ? & _ & _ & _ & _ & _ & _ & Hamong).
  destruct Hamong as (loc & live & _ & idx & _ & Hidx).
  by eapply known_faces_student.
Qed.

(** C4.  For a range whose two dates parse, over a store that satisfies
    the key constraints of the schema, the CSV export is the header row
    followed by as many data rows as there are attendance rows dated
    within the range, both ends included. *)
Theorem export_row_count (req : request) (d : DB) (start_date end_date : date) :
  foreign_keys_hold d ->
  strptime_date (args_get (args req) "start_date") = Ok start_date ->
  strptime_date (args_get (args req) "end_date") = Ok end_date ->
  (exists rows disposition,
     export_csv req d =
       CsvResponse
         (["Student Name"; "Student ID"; "Date"; "Time"; "Status"] :: rows)
         disposition) /\
  length (data_rows (export_csv req d)) =
  length (filter (fun a => date_leb start_date (a_date a) &&
                           date_leb (a_date a) end_date)
            (attendance d)).
Proof.
  intros [Hpk Hfk] Hs He.
  unfold export_csv. rewrite (parse_range_ok req start_date end_date Hs He).
  split; [by eexists _, _|].
  simpl. rewrite length_map. unfold export_records.
  rewrite (Permutation_length (order_by_perm _)).
  unfold attendance_join_student.
  by rewrite (join_filter_length (in_range start_date end_date)).
Qed.

End ReportProperties.

(** ** Orderings *)

Section OrderProperties.

Context `{Ext : External}.

Lemma lex_opp (c k : comparison) : CompOpp (lex c k) = lex (CompOpp c) (CompOpp k).
Proof. by destruct c. Qed.

Lemma date_compare_antisym (a b : date) :
  date_compare b a = CompOpp (date_compare a b).
Proof.
  unfold date_compare. rewrite !lex_opp.
  by rewrite <- !Z.compare_antisym.
Qed.

Lemma datetime_compare_antisym (a b : datetime) :
  datetime_compare b a = CompOpp (datetime_compare a b).
Proof.
  unfold datetime_compare. rewrite !lex_opp.
  by rewrite <- !Z.compare_antisym, <- date_compare_antisym.
Qed.


Lemma date_compare_eq (a b : date) : date_compare a b = Eq -> a = b.
Proof.
  destruct a as [y1 m1 d1], b as [y2 m2 d2]. unfold date_compare, lex. simpl.
  destruct (Z.compare_spec y1 y2); try done.
  destruct (Z.compare_spec m1 m2); try done.
  destruct (Z.compare_spec d1 d2); try done.
  intros _. by subst.
Qed.

Lemma date_leb_refl (a : date) : date_leb a a = true.
Proof.
  unfold date_leb, date_compare, lex. by rewrite !Z.compare_refl.
Qed.

Lemma date_leb_trans (a b c : date) :
  date_leb a b = true -> date_leb b c = true -> date_leb a c = true.
Proof.
  destruct a as [y1 m1 d1], b as [y2 m2 d2], c as [y3 m3 d3].
  unfold date_leb, date_compare, lex. simpl.
  destruct (Z.compare_spec y1 y2), (Z.compare_spec y2 y3),
           (Z.compare_spec y1 y3); try done; try lia;
  destruct (Z.compare_spec m1 m2), (Z.compare_spec m2 m3),
           (Z.compare_spec m1 m3); try done; try lia;
  destruct (Z.compare_spec d1 d2), (Z.compare_spec d2 d3),
           (Z.compare_spec d1 d3); try done; lia.
Qed.

Lemma date_leb_antisym (a b : date) :
  date_leb a b = true -> date_leb b a = true -> a = b.
Proof.
  unfold date_leb. rewrite (date_compare_antisym a b).
  destruct (date_compare a b) eqn:Hcmp; try done.
  intros _ _. by apply date_compare_eq.
Qed.

(** Insertion keeps the elements and the order. *)
Lemma insert_by_perm {A : Type} (cmp : A -> A -> comparison) (x : A) (l : list A) :
  Permutation (insert_by cmp x l) (x :: l).
Proof.
  induction l as [|y rest IH]; simpl; [done|].
  destruct (cmp x y); try done.
  rewrite IH. apply perm_swap.
Qed.

Lemma sort_by_perm {A : Type} (cmp : A -> A -> comparison) (l : list A) :
  Permutation (sort_by cmp l) l.
Proof.
  unfold sort_by. induction l as [|x rest IH]; simpl; [done|].
  rewrite insert_by_perm. by apply perm_skip.
Qed.

Lemma insert_by_sorted {A : Type} (cmp : A -> A -> comparison) (x : A) (l : list A) :
  (forall a b, cmp a b = Gt -> cmp b a <> Gt) ->
  Sorted (fun a b => cmp a b <> Gt) l ->
  Sorted (fun a b => cmp a b <> Gt) (insert_by cmp x l).
Proof.
  intros Hanti Hsorted. induction Hsorted as [|y rest Hrest IH Hhd]; simpl.
  - by repeat constructor.
  - destruct (cmp x y) eqn:Hxy.
    + constructor; [by constructor|]. constructor. by rewrite Hxy.
    + constructor; [by constructor|]. constructor. by rewrite Hxy.
    + constructor; [done|].
      destruct Hhd as [|z rest' Hyz]; simpl.
      * constructor. by apply Hanti.
      * destruct (cmp x z); constructor; try done; by apply Hanti.
Qed.

Lemma sort_by_sorted {A : Type} (cmp : A -> A -> comparison) (l : list A) :
  (forall a b, cmp a b = Gt -> cmp b a <> Gt) ->
  Sorted (fun a b => cmp a b <> Gt) (sort_by cmp l).
Proof.
  intros Hanti. unfold sort_by. induction l as [|x rest IH]; simpl.
  - constructor.
  - by apply insert_by_sorted.
Qed.

(** The ordering of the export is an instance of the general one. *)
Lemma order_by_sort_by (l : list (Attendance * Student)) :
  order_by l = sort_by export_compare l.
Proof.
  unfold order_by, sort_by.
  assert (Hins : forall x k, insert_ordered x k = insert_by export_compare x k).
  { intros x k. induction k as [|y rest IH]; simpl; [done|]. by rewrite IH. }
  induction l as [|x rest IH]; simpl; [done|]. by rewrite IH, Hins.
Qed.

End OrderProperties.

(** ** Further properties of the reporting endpoints *)

Section ReportContents.

Context `{Ext : External}.

Lemma elem_of_attendance_join_student (d : DB) (x : Attendance * Student) :
  x ∈ attendance_join_student d <->
  x.1 ∈ attendance d /\ x.2 ∈ students d /\ s_id x.2 = a_student_id x.1.
Proof.
  unfold attendance_join_student.
  rewrite list_elem_of_In, in_flat_map. split.
  - intros (a & Ha & Hx). apply in_map_iff in Hx as (s & <- & Hs).
    apply list_elem_of_In, list_elem_of_filter in Hs as [Hid Hs].
    simpl. by rewrite <- list_elem_of_In in Ha.
  - destruct x as [a s]. simpl. intros (Ha & Hs & Hid).
    exists a. split; [by apply list_elem_of_In|].
    apply in_map_iff. exists s. split; [done|].
    apply list_elem_of_In, list_elem_of_filter. done.
Qed.

Lemma elem_of_export_records (start_date end_date : date) (d : DB)
    (x : Attendance * Student) :
  x ∈ export_records start_date end_date d <->
  x.1 ∈ attendance d /\ x.2 ∈ students d /\ s_id x.2 = a_student_id x.1 /\
  date_leb start_date (a_date x.1) = true /\ date_leb (a_date x.1) end_date = true.
Proof.
  unfold export_records. rewrite order_by_sort_by, sort_by_perm.
  rewrite list_elem_of_filter, elem_of_attendance_join_student.
  unfold in_range. rewrite Is_true_true, andb_true_iff. tauto.
Qed.

Lemma export_csv_ok (req : request) (d : DB) (start_date end_date : date) :
  strptime_date (args_get (args req) "start_date") = Ok start_date ->
  strptime_date (args_get (args req) "end_date") = Ok end_date ->
  data_rows (export_csv req d) = map csv_row (export_records start_date end_date d).
Proof.
  intros Hs He. unfold export_csv, parse_range, result_bind. by rewrite Hs, He.
Qed.


(** X11.  Over a store whose rows carry valid dates and timestamps with a
    year of four digits, the data rows of the export are exactly the rows
    built from an attendance row dated within the range and the student
    it refers to: nothing outside the range and no row without its
    student. *)
Theorem export_rows_content (req : request) (d : DB) (start_date end_date : date)
    (row : list string) :
  (forall a, a ∈ attendance d ->
             valid_date (a_date a) /\ printable_timestamp (a_timestamp a)) ->
  strptime_date (args_get (args req) "start_date") = Ok start_date ->
  strptime_date (args_get (args req) "end_date") = Ok end_date ->
  row ∈ data_rows (export_csv req d) <->
  exists (a : Attendance) (s : Student),
    a ∈ attendance d /\ s ∈ students d /\ s_id s = a_student_id a /\
    date_leb start_date (a_date a) = true /\ date_leb (a_date a) end_date = true /\
    row = [s_name s; s_student_id s; isoformat (a_date a);
           strftime_timestamp (a_timestamp a); a_status a].
Proof.
  intros _ Hs He. rewrite (export_csv_ok req d start_date end_date Hs He).
  rewrite list_elem_of_fmap. split.
  - intros ([a s] & -> & Hx). apply elem_of_export_records in Hx.
    exists a, s. simpl in Hx. by destruct Hx as (? & ? & ? & ? & ?).
  - intros (a & s & Ha & Hst & Hid & Hlo & Hhi & ->).
    exists (a, s). split; [done|]. apply elem_of_export_records. done.
Qed.

(** X12.  A range whose end lies before its start selects nothing: the export is
    the header alone and every student of the report has count zero. *)
Theorem inverted_range_is_empty (req : request) (d : DB) (start_date end_date : date) :
  strptime_date (args_get (args req) "start_date") = Ok start_date ->
  strptime_date (args_get (args req) "end_date") = Ok end_date ->
  date_leb start_date end_date = false ->
  (exists disposition,
     export_csv req d =
       CsvResponse [["Student Name"; "Student ID"; "Date"; "Time"; "Status"]]
                   disposition) /\
  present_counts (get_reports_data req d) =
    map (fun _ => Some (JInt 0)) (students d).
Proof.
  intros Hs He Hinv.
  assert (Hnone : forall a, in_range start_date end_date a = false).
  { intros a. apply not_true_iff_false. intros Hin.
    apply andb_true_iff in Hin as [Hlo Hhi].
    by rewrite (date_leb_trans _ _ _ Hlo Hhi) in Hinv. }
  split.
  - assert (Hrecords : export_records start_date end_date d = []).
    { apply Permutation_nil_r. unfold export_records.
      rewrite order_by_sort_by, sort_by_perm.
      induction (attendance_join_student d) as [|x rest IH]; [done|].
      rewrite filter_cons_False; [exact IH|]. rewrite Hnone. simpl. tauto. }
    unfold export_csv, parse_range, result_bind. rewrite Hs, He, Hrecords.
    by eexists.
  - unfold get_reports_data, parse_range, result_bind. rewrite Hs, He. simpl.
    unfold report_data. rewrite <- list_fmap_compose.
    apply list_fmap_ext. intros i s _. simpl.
    assert (Hrec : student_records s start_date end_date (attendance d) = []).
    { unfold student_records.
      induction (attendance d) as [|a rest IH]; [done|].
      rewrite filter_cons_False; [exact IH|]. rewrite Hnone. by intros [_ ?]. }
    by rewrite Hrec.
Qed.

(** X13.  The [present_dates] of a report entry list, without repetition, the
    ISO form of every date of the range on which the student has a row,
    and [present_count] is the length of that list. *)
Theorem report_present_dates (req : request) (d : DB) (start_date end_date : date)
    (i : nat) (s : Student) :
  strptime_date (args_get (args req) "start_date") = Ok start_date ->
  strptime_date (args_get (args req) "end_date") = Ok end_date ->
  students d !! i = Some s ->
  exists (entries : list json) (entry : json) (isos : list string),
    get_reports_data req d = JsonResponse (JList entries) 200 /\
    entries !! i = Some entry /\
    json_field "name" entry = Some (JStr (s_name s)) /\
    json_field "student_id" entry = Some (JStr (s_student_id s)) /\
    json_field "present_dates" entry = Some (JList (map JStr isos)) /\
    json_field "present_count" entry = Some (JInt (Z.of_nat (length isos))) /\
    NoDup isos /\
    forall iso : string,
      iso ∈ isos <->
      exists r, r ∈ attendance d /\ a_student_id r = s_id s /\
                date_leb start_date (a_date r) = true /\
                date_leb (a_date r) end_date = true /\
                iso = isoformat (a_date r).
Proof.
  intros Hs He Hi.
  set (records := student_records s start_date end_date (attendance d)).
  exists (report_data start_date end_date d),
         (report_entry s (present_dates records)),
         (elements (present_dates records)).
  unfold get_reports_data, parse_range, result_bind. rewrite Hs, He.
  split; [done|]. split.
  { unfold report_data. by rewrite list_lookup_fmap, Hi. }
  do 4 (split; [done|]). split; [apply NoDup_elements|].
  intros iso. rewrite elem_of_elements. unfold present_dates.
  rewrite elem_of_list_to_set, list_elem_of_fmap.
  unfold records, student_records. split.
  - intros (r & -> & Hr). apply list_elem_of_filter in Hr as [[Hsid Hrange] Hin].
    apply Is_true_true, andb_true_iff in Hrange as [? ?]. by exists r.
  - intros (r & Hin & Hsid & Hlo & Hhi & ->). exists r. split; [done|].
    apply list_elem_of_filter. split; [|done]. split; [done|].
    apply Is_true_true, andb_true_iff. done.
Qed.

End ReportContents.

(** ** Properties of the dashboard and of the list of today *)

Section DashboardProperties.

Context `{Ext : External}.

Lemma elem_of_attendance_on (pk : Z) (on : date) (att : list Attendance)
    (a : Attendance) :
  a ∈ attendance_on pk on att <-> a ∈ att /\ a_student_id a = pk /\ a_date a = on.
Proof. unfold attendance_on. rewrite list_elem_of_filter. tauto. Qed.

Lemma attendance_on_nonempty (pk : Z) (on : date) (att : list Attendance) :
  attendance_on pk on att <> [] <->
  exists a, a ∈ att /\ a_student_id a = pk /\ a_date a = on.
Proof.
  split.
  - destruct (attendance_on pk on att) as [|a rest] eqn:Hrows; [done|].
    intros _. exists a. apply elem_of_attendance_on. rewrite Hrows. by left.
  - intros (a & Ha) Hnil. apply elem_of_attendance_on in Ha.
    rewrite Hnil in Ha. by apply elem_of_nil in Ha.
Qed.

Lemma length_filter_split {A : Type} (P Q : A -> Prop)
    `{!forall x, Decision (P x)} `{!forall x, Decision (Q x)} (l : list A) :
  (forall x, Q x <-> ~ P x) ->
  (length (filter P l) + length (filter Q l))%nat = length l.
Proof.
  intros HPQ. induction l as [|x rest IH]; [done|].
  destruct (decide (P x)) as [HP | HP].
  - rewrite filter_cons_True by done.
    rewrite (filter_cons_False Q) by (rewrite HPQ; tauto). simpl. lia.
  - rewrite filter_cons_False by done.
    rewrite (filter_cons_True Q) by (by rewrite HPQ). simpl. lia.
Qed.

(** The distinct students of today's rows are the students who have a row
    today. *)
Lemma distinct_present_students (on : date) (d : DB) :
  foreign_keys_hold d ->
  distinct_present on (attendance d) =
  length (filter (fun s => attendance_on (s_id s) on (attendance d) <> [])
            (students d)).
Proof.
  intros [Hpk Hfk]. unfold distinct_present.
  rewrite <- (length_map s_id (filter _ (students d))).
  apply Permutation_length, NoDup_Permutation.
  - apply NoDup_remove_dups.
  - eapply sublist_NoDup; [exact Hpk | apply fmap_sublist, sublist_filter].
  - intros pk. rewrite elem_of_remove_dups, !list_elem_of_fmap. split.
    + intros (a & -> & Ha). unfold attendance_today in Ha.
      apply list_elem_of_filter in Ha as [Hdate Ha].
      pose proof (Hfk a Ha) as Hs. apply list_elem_of_fmap in Hs as (s & Hid & Hs).
      exists s. split; [done|]. apply list_elem_of_filter. split; [|done].
      apply attendance_on_nonempty. by exists a.
    + intros (s & -> & Hs). apply list_elem_of_filter in Hs as [Hrows Hs].
      apply attendance_on_nonempty in Hrows as (a & Ha & Hid & Hdate).
      exists a. split; [done|]. unfold attendance_today.
      by apply list_elem_of_filter.
Qed.

(** X6.  The dashboard, over a store that satisfies the key constraints:
    [present_today] is the number of students with a row dated today,
    [absent_today] the number of students without one, so both lie
    between zero and [total_students]. *)
Theorem index_counts_students (env : environment) (d : DB) :
  foreign_keys_hold d ->
  total_students (index env d) = Z.of_nat (length (students d)) /\
  present_today (index env d) =
    Z.of_nat (length (filter
      (fun s => attendance_on (s_id s) (today env) (attendance d) <> [])
      (students d))) /\
  absent_today (index env d) =
    Z.of_nat (length (filter
      (fun s => attendance_on (s_id s) (today env) (attendance d) = [])
      (students d))) /\
  0 <= present_today (index env d) <= total_students (index env d) /\
  0 <= absent_today (index env d) <= total_students (index env d).
Proof.
  intros Hkeys. unfold index. simpl.
  rewrite (distinct_present_students (today env) d Hkeys).
  pose proof (length_filter_split
    (fun s => attendance_on (s_id s) (today env) (attendance d) <> [])
    (fun s => attendance_on (s_id s) (today env) (attendance d) = [])
    (students d)) as Hsplit.
  rewrite <- Hsplit.
  - repeat split; lia.
  - intros s. split; [intros Heq Hne; by apply Hne | apply dec_stable].
Qed.

Lemma elem_of_today_records (env : environment) (d : DB) (x : Attendance * Student) :
  x ∈ today_records env d <->
  x.1 ∈ attendance d /\ a_date x.1 = today env /\
  x.2 ∈ students d /\ s_id x.2 = a_student_id x.1.
Proof.
  unfold today_records. rewrite sort_by_perm.
  rewrite list_elem_of_filter, elem_of_attendance_join_student. tauto.
Qed.

Lemma length_today_records (env : environment) (d : DB) :
  foreign_keys_hold d ->
  length (today_records env d) =
  length (attendance_today (today env) (attendance d)).
Proof.
  intros [Hpk Hfk]. unfold today_records, attendance_today.
  rewrite (Permutation_length (sort_by_perm _ _)).
  set (P := fun a : Attendance => bool_decide (a_date a = today env)).
  assert (Hjoin : filter (fun x : Attendance * Student => a_date x.1 = today env)
                    (attendance_join_student d) =
                  filter (fun x : Attendance * Student => P x.1)
                    (attendance_join_student d)).
  { apply list_filter_iff. intros x. unfold P. by rewrite bool_decide_spec. }
  assert (Hrows : filter (fun a => a_date a = today env) (attendance d) =
                  filter (fun a => P a) (attendance d)).
  { apply list_filter_iff. intros x. unfold P. by rewrite bool_decide_spec. }
  rewrite Hjoin, Hrows. unfold attendance_join_student.
  by apply join_filter_length.
Qed.

(** X7.  GET /api/attendance/today answers 200 with one entry per attendance
    row dated today joined with its student, the latest first; over a
    store that satisfies the key constraints there are as many entries as
    rows dated today. *)
Theorem today_attendance_latest_first (env : environment) (d : DB) :
  exists records : list (Attendance * Student),
    get_today_attendance env d =
      JsonResponse
        (JList (map (fun x =>
           JObj [("name", JStr (s_name x.2));
                 ("student_id", JStr (s_student_id x.2));
                 ("time", JStr (strftime_clock (a_timestamp x.1)))]) records))
        200 /\
    Sorted (fun x y =>
              datetime_compare (a_timestamp y.1) (a_timestamp x.1) <> Gt) records /\
    (forall x, x ∈ records <->
               x.1 ∈ attendance d /\ a_date x.1 = today env /\
               x.2 ∈ students d /\ s_id x.2 = a_student_id x.1) /\
    (foreign_keys_hold d ->
     length records =
     length (filter (fun a => a_date a = today env) (attendance d))).
Proof.
  exists (today_records env d). split; [done|]. split; [|split].
  - unfold today_records.
    apply (sort_by_sorted latest_first).
    intros a b Hab. unfold latest_first in *.
    rewrite (datetime_compare_antisym (a_timestamp b.1) (a_timestamp a.1)), Hab.
    done.
  - apply elem_of_today_records.
  - apply length_today_records.
Qed.

Lemma one_row_per_day_tail (a : Attendance) (att : list Attendance) :
  one_row_per_day (a :: att) -> one_row_per_day att.
Proof.
  intros Hinv pk on. specialize (Hinv pk on).
  change (a :: att) with ([a] ++ att) in Hinv.
  rewrite attendance_on_app, length_app in Hinv. lia.
Qed.

(** With one row per student and day, the rows of a day belong to
    different students. *)
Lemma one_row_per_day_distinct (on : date) (att : list Attendance) :
  one_row_per_day att ->
  NoDup (map a_student_id (attendance_today on att)).
Proof.
  induction att as [|a rest IH]; intros Hinv; [constructor|].
  pose proof (one_row_per_day_tail a rest Hinv) as Hrest.
  unfold attendance_today in *.
  destruct (decide (a_date a = on)) as [Hdate | Hdate].
  - rewrite filter_cons_True by done. simpl. apply NoDup_cons. split; [|by apply IH].
    intros Hin. apply list_elem_of_fmap in Hin as (b & Hid & Hb).
    apply list_elem_of_filter in Hb as [Hbdate Hb].
    specialize (Hinv (a_student_id a) on).
    change (a :: rest) with ([a] ++ rest) in Hinv.
    rewrite attendance_on_app, length_app, attendance_on_one_hit in Hinv by done.
    assert (Hhit : b ∈ attendance_on (a_student_id a) on rest).
    { by apply elem_of_attendance_on. }
    destruct (attendance_on (a_student_id a) on rest); [by apply elem_of_nil in Hhit|].
    simpl in Hinv. lia.
  - rewrite filter_cons_False by done. by apply IH.
Qed.

(** X8.  The dashboard and the list of today agree: with one row per student
    and day, over a store that satisfies the key constraints,
    [present_today] is the number of entries of the list of today. *)
Theorem index_agrees_with_today_list (env : environment) (d : DB) :
  foreign_keys_hold d ->
  one_row_per_day (attendance d) ->
  exists entries : list json,
    get_today_attendance env d = JsonResponse (JList entries) 200 /\
    present_today (index env d) = Z.of_nat (length entries).
Proof.
  intros Hkeys Hinv. eexists. split; [reflexivity|].
  rewrite length_map, (length_today_records env d Hkeys).
  unfold index, distinct_present. simpl. f_equal.
  rewrite <- (length_map a_student_id (attendance_today _ _)).
  apply Permutation_length, NoDup_Permutation.
  - apply NoDup_remove_dups.
  - by apply one_row_per_day_distinct.
  - intros pk. apply elem_of_remove_dups.
Qed.

End DashboardProperties.

(** ** Further properties of the recognition endpoint *)

Section RecognizeResults.

Context `{Ext : External}.

(** An index answered by the matcher lies within the gallery. *)
Lemma compare_face_index (known : list encoding) (live : encoding) (tol : Q)
    (idx : nat) :
  (compare_face known live tol).1 = Some idx -> (idx < length known)%nat.
Proof.
  destruct known as [|k0 rest]; [done|].
  destruct (compare_face_spec (k0 :: rest) live tol) as (i & k & Hi & _ & Hres);
    [done|].
  rewrite Hres. destruct (Qltb _ _); cbn [fst]; [|done].
  intros [= <-]. by apply lookup_lt_Some in Hi.
Qed.

(** One iteration returns a result when the existence query does not
    raise: the indexing of the parallel lists cannot fail. *)
Lemma process_face_ok (env : environment)
    (known_encodings : list encoding) (known_student_ids : list Z)
    (known_names : list string) (i : nat) (loc : location)
    (live : encoding) (st : app_state) :
  length known_names = length known_encodings ->
  length known_student_ids = length known_encodings ->
  lookup_error env i = None ->
  exists (name : string) (st' : app_state),
    process_face env known_encodings known_student_ids known_names i loc live st =
      (Ok (face_result name (compare_face known_encodings live tolerance).2 loc), st') /\
    ((compare_face known_encodings live tolerance).1 = None -> name = "Unknown") /\
    (forall idx,
       (compare_face known_encodings live tolerance).1 = Some idx ->
       exists n, known_names !! idx = Some n /\
                 (name = n \/ name = n +:+ " (Marked)")).
Proof.
  intros Hnames Hids Hlookup. unfold process_face.
  pose proof (compare_face_index known_encodings live tolerance) as Hvalid.
  destruct (compare_face known_encodings live tolerance) as [match_idx confidence].
  simpl in *. destruct match_idx as [idx|].
  - specialize (Hvalid idx eq_refl).
    destruct (lookup_lt_is_Some_2 known_names idx) as [n Hn]; [lia|].
    destruct (lookup_lt_is_Some_2 known_student_ids idx) as [pk Hpk]; [lia|].
    unfold bind, lift, ret, py_index, query_already_marked, mark_attendance.
    rewrite Hn, Hpk, Hlookup.
    destruct (head _).
    + exists n. eexists. split; [done|]. split; [done|].
      intros ? [= <-]. exists n. auto.
    + destruct (commit_error env i).
      * exists n. eexists. split; [done|]. split; [done|].
        intros ? [= <-]. exists n. auto.
      * exists (n +:+ " (Marked)"). eexists. split; [done|]. split; [done|].
        intros ? [= <-]. exists n. auto.
  - exists "Unknown", st. split; [done|]. split; [done|]. done.
Qed.

Lemma recognize_loop_ok (env : environment)
    (known_encodings : list encoding) (known_student_ids : list Z)
    (known_names : list string) (detected : list (location * encoding)) :
  length known_names = length known_encodings ->
  length known_student_ids = length known_encodings ->
  (forall i, lookup_error env i = None) ->
  forall (i : nat) (st : app_state),
  exists (results : list json) (st' : app_state),
    recognize_loop env known_encodings known_student_ids known_names i detected st =
      (Ok results, st') /\
    Forall2 (reported known_encodings known_names) detected results.
Proof.
  intros Hnames Hids Hlookup.
  induction detected as [|[loc live] rest IH]; intros i st; simpl.
  - exists [], st. split; [done | constructor].
  - destruct (process_face_ok env known_encodings known_student_ids known_names
                i loc live st Hnames Hids (Hlookup i))
      as (name & st1 & Hhead & Hunknown & Hknown).
    destruct (IH (S i) st1) as (rs & st2 & Hrest & Hall).
    exists (face_result name (compare_face known_encodings live tolerance).2 loc :: rs), st2.
    split.
    + unfold bind at 1. rewrite Hhead. unfold bind at 1. by rewrite Hrest.
    + constructor; [|done]. by exists name.
Qed.

(** X4.  When the image pipeline and the queries do not raise and the gallery
    is not empty, the endpoint answers 200 with one result per detected
    face, in the order of detection: the result carries the bounding box
    of the face, the confidence of the matcher, and as name "Unknown" for
    an unmatched face, the stored name of the matched gallery row
    otherwise, with or without the suffix " (Marked)". *)
Theorem recognize_answers_every_face (env : environment) (req : request)
    (st : app_state) (file : upload) (in_memory : list Byte.byte)
    (img rgb_img : image) (locations : list location)
    (live_encodings : list encoding) :
  files_image req = Some file ->
  read file = Ok in_memory ->
  imdecode in_memory = Ok (Some img) ->
  cvtColor img = Ok rgb_img ->
  face_locations rgb_img = Ok locations ->
  face_encodings rgb_img locations = Ok live_encodings ->
  known_faces_error env = None ->
  (forall i, lookup_error env i = None) ->
  known_faces_rows (db st) <> [] ->
  exists results : list json,
    (recognize env req st).1 =
      JsonResponse (JObj [("results", JList results)]) 200 /\
    length results = Nat.min (length locations) (length live_encodings) /\
    forall (i : nat) (loc : location) (live : encoding),
      locations !! i = Some loc ->
      live_encodings !! i = Some live ->
      exists (r : json) (name : string),
        results !! i = Some r /\
        json_field "name" r = Some (JStr name) /\
        json_field "location" r = Some (location_json loc) /\
        let matched :=
          (compare_face (map (fun f => f.1.1) (known_faces_rows (db st)))
             live tolerance).1 in
        (matched = None -> name = "Unknown") /\
        (forall idx, matched = Some idx ->
           exists n,
             map (fun f => f.2) (known_faces_rows (db st)) !! idx = Some n /\
             (name = n \/ name = n +:+ " (Marked)")).
Proof.
  intros Hfile Hread Hdec Hcvt Hloc Henc Hquery Hlookup Hrows.
  set (known_faces := known_faces_rows (db st)) in *.
  destruct (recognize_loop_ok env
              (map (fun f => f.1.1) known_faces)
              (map (fun f => f.1.2) known_faces)
              (map (fun f => f.2) known_faces)
              (zip locations live_encodings)
              ltac:(by rewrite !length_map) ltac:(by rewrite !length_map)
              Hlookup 0%nat st)
    as (results & st' & Hloop & Hall).
  exists results. split; [|split].
  - unfold recognize, recognize_body, bind, lift, ret, query_known_faces.
    rewrite Hfile, Hread, Hdec, Hcvt, Hloc, Henc, Hquery.
    fold known_faces. destruct known_faces as [|kf rest] eqn:Hkf; [done|].
    cbv zeta. by rewrite Hloop.
  - rewrite <- (Forall2_length _ _ _ Hall). apply length_zip_with.
  - intros i loc live Hi Hlive.
    assert (Hzip : zip locations live_encodings !! i = Some (loc, live)).
    { rewrite lookup_zip_with, Hi, Hlive. done. }
    destruct (Forall2_lookup_l _ _ _ _ _ Hall Hzip) as (r & Hr & name & Heq & Hnone & Hsome).
    exists r, name. split; [exact Hr|]. rewrite Heq.
    split; [done|]. split; [done|].
    simpl in *. split; [exact Hnone | exact Hsome].
Qed.

End RecognizeResults.

(** ** Repeated recognition *)

Section RecognizeRepeat.

Context `{Ext : External}.

(** A face whose student is already marked today changes nothing. *)
Lemma process_face_no_write (env : environment)
    (known_encodings : list encoding) (known_student_ids : list Z)
    (known_names : list string) (i : nat) (loc : location)
    (live : encoding) (st : app_state) :
  (forall pk, matcher_picks known_encodings known_student_ids live pk ->
              attendance_on pk (today env) (attendance (db st)) <> []) ->
  (process_face env known_encodings known_student_ids known_names i loc live st).2 = st.
Proof.
  intros Hmarked. unfold process_face.
  destruct (compare_face known_encodings live tolerance) as [match_idx confidence] eqn:Hcmp.
  destruct match_idx as [idx|]; [|done].
  unfold bind, lift, ret, py_index, query_already_marked, mark_attendance.
  destruct (known_names !! idx) as [name|]; [|done].
  destruct (known_student_ids !! idx) as [pk|] eqn:Hpk; [|done].
  destruct (lookup_error env i); [done|].
  destruct (head _) as [row|] eqn:Hhead; [done|].
  apply head_None in Hhead. exfalso. apply (Hmarked pk); [|done].
  exists idx. by rewrite Hcmp.
Qed.

Lemma recognize_loop_no_write (env : environment)
    (known_encodings : list encoding) (known_student_ids : list Z)
    (known_names : list string) (detected : list (location * encoding))
    (st : app_state) :
  (forall pk, matched_among known_encodings known_student_ids detected pk ->
              attendance_on pk (today env) (attendance (db st)) <> []) ->
  forall i : nat,
    (recognize_loop env known_encodings known_student_ids known_names
       i detected st).2 = st.
Proof.
  induction detected as [|[loc live] rest IH]; intros Hmarked i; simpl; [done|].
  unfold bind at 1.
  pose proof (process_face_no_write env known_encodings known_student_ids
                known_names i loc live st) as Hhead.
  destruct (process_face _ _ _ _ _ _ _ st) as [[r|e] st1]; simpl in Hhead.
  - rewrite Hhead.
    + unfold bind at 1.
      assert (Hrest : (recognize_loop env known_encodings known_student_ids
                         known_names (S i) rest st).2 = st).
      { apply IH. intros pk (loc' & live' & Hin & Hpick). apply Hmarked.
        exists loc', live'. split; [apply elem_of_cons; by right | done]. }
      by destruct (recognize_loop _ _ _ _ _ rest st) as [[rs|e] st2].
    + intros pk Hpick. apply Hmarked. exists loc, live.
      split; [apply elem_of_cons; by left | done].
  - apply Hhead. intros pk Hpick. apply Hmarked. exists loc, live.
    split; [apply elem_of_cons; by left | done].
Qed.

Lemma recognize_db_unchanged (env : environment) (req : request)
    (st : app_state) :
  (forall pk, matched_in_request req (db st) pk ->
              attendance_on pk (today env) (attendance (db st)) <> []) ->
  db (recognize env req st).2 = db st.
Proof.
  intros Hmarked. unfold recognize.
  destruct (files_image req) as [file|] eqn:Hfile; [|done].
  assert (Hbody : (recognize_body env file st).2 = st).
  { unfold recognize_body, bind, lift, ret, query_known_faces.
    destruct (read file) as [in_memory|] eqn:Hread; [|done].
    destruct (imdecode in_memory) as [[img|]|] eqn:Hdec; try done.
    destruct (cvtColor img) as [rgb_img|] eqn:Hcvt; [|done].
    destruct (face_locations rgb_img) as [locations|] eqn:Hloc; [|done].
    destruct (face_encodings rgb_img locations) as [live_encodings|] eqn:Henc; [|done].
    destruct (known_faces_error env); [done|].
    destruct (known_faces_rows (db st)) as [|kf rest] eqn:Hrows; [done|].
    cbv zeta.
    match goal with
    | |- context [recognize_loop ?e ?ke ?ki ?kn ?i ?det st] =>
        pose proof (recognize_loop_no_write e ke ki kn det st) as Hloop;
        destruct (recognize_loop e ke ki kn i det st) as [[rs|err] st1] eqn:Hrun
    end.
    - simpl. rewrite <- (Hloop ltac:(intros pk Hpk; apply Hmarked;
        exists file, in_memory, img, rgb_img, locations, live_encodings;
        by rewrite Hrows) 0%nat), Hrun. done.
    - simpl. rewrite <- (Hloop ltac:(intros pk Hpk; apply Hmarked;
        exists file, in_memory, img, rgb_img, locations, live_encodings;
        by rewrite Hrows) 0%nat), Hrun. done. }
  destruct (recognize_body env file st) as [[resp|e] st1]; simpl in *; by subst.
Qed.

(** X2.  A request in which every matched student already has a row for today
    writes nothing to the store, whatever else happens during it. *)
Theorem recognize_no_new_student (env : environment) (req : request)
    (st : app_state) :
  (forall pk, matched_in_request req (db st) pk ->
              attendance_on pk (today env) (attendance (db st)) <> []) ->
  db (recognize env req st).2 = db st.
Proof. apply recognize_db_unchanged. Qed.

(** When no query and no commit raises, every matched face of the loop
    has a row for today afterwards. *)
Lemma recognize_loop_marks_all (env : environment)
    (known_encodings : list encoding) (known_student_ids : list Z)
    (known_names : list string) (detected : list (location * encoding)) :
  length known_names = length known_encodings ->
  length known_student_ids = length known_encodings ->
  (forall i, lookup_error env i = None) ->
  (forall i, commit_error env i = None) ->
  forall (i : nat) (st : app_state) (pk : Z),
    matched_among known_encodings known_student_ids detected pk ->
    attendance_on pk (today env)
      (attendance (db (recognize_loop env known_encodings known_student_ids
                         known_names i detected st).2)) <> [].
Proof.
  intros Hnames Hids Hlookup Hcommit.
  induction detected as [|[loc live] rest IH];
    intros i st pk (loc' & live' & Hin & Hpick).
  { by apply elem_of_nil in Hin. }
  simpl. unfold bind at 1.
  destruct (process_face_ok env known_encodings known_student_ids known_names
              i loc live st Hnames Hids (Hlookup i))
    as (name & st1 & Hhead & _ & _).
  pose proof (process_face_marked env known_encodings known_student_ids
                known_names i loc live st) as Hmark.
  rewrite Hhead in *. simpl in Hmark. unfold bind at 1.
  pose proof (recognize_loop_step env known_encodings known_student_ids
                known_names rest (S i) st1) as (_ & _ & (added & Hadd & _) & _).
  specialize (IH (S i) st1 pk).
  destruct (recognize_loop _ _ _ _ _ rest st1) as [[rs|e] st2]; simpl in *.
  all: apply elem_of_cons in Hin as [[= -> ->] | Hin];
    [ destruct Hpick as (idx & Hcmp & Hpk);
      destruct (lookup_lt_is_Some_2 known_names idx) as [n Hn];
        [ apply compare_face_index in Hcmp; lia |];
      rewrite Hadd, attendance_on_app; intros Hnil;
      apply app_eq_nil in Hnil as [Hnil _]; revert Hnil;
      by apply (Hmark idx n pk)
    | apply IH; by exists loc', live' ].
Qed.

Lemma recognize_marks_all (env : environment) (req : request)
    (st : app_state) (pk : Z) :
  known_faces_error env = None ->
  (forall i, lookup_error env i = None) ->
  (forall i, commit_error env i = None) ->
  matched_in_request req (db st) pk ->
  attendance_on pk (today env) (attendance (db (recognize env req st).2)) <> [].
Proof.
  intros Hquery Hlookup Hcommit
    (file & in_memory & img & rgb_img & locations & live_encodings &
     Hfile & Hread & Hdec & Hcvt & Hloc & Henc & Hamong).
  unfold recognize, recognize_body, bind, lift, ret, query_known_faces.
  rewrite Hfile, Hread, Hdec, Hcvt, Hloc, Henc, Hquery.
  assert (Hnames : length (map (fun f : encoding * Z * string => f.2)
                             (known_faces_rows (db st))) =
                   length (map (fun f : encoding * Z * string => f.1.1)
                             (known_faces_rows (db st))))
    by (by rewrite !length_map).
  assert (Hids : length (map (fun f : encoding * Z * string => f.1.2)
                           (known_faces_rows (db st))) =
                 length (map (fun f : encoding * Z * string => f.1.1)
                           (known_faces_rows (db st))))
    by (by rewrite !length_map).
  pose proof (recognize_loop_marks_all env
                (map (fun f => f.1.1) (known_faces_rows (db st)))
                (map (fun f => f.1.2) (known_faces_rows (db st)))
                (map (fun f => f.2) (known_faces_rows (db st)))
                (zip locations live_encodings)
                Hnames Hids Hlookup Hcommit 0%nat st pk Hamong) as Hloop.
  clear Hnames Hids.
  destruct (known_faces_rows (db st)) as [|kf rest] eqn:Hrows.
  { destruct Hamong as (_ & _ & _ & idx & _ & Hidx). done. }
  cbv zeta.
  by destruct (recognize_loop _ _ _ _ _ _ st) as [[rs|e] st2].
Qed.

Lemma matched_in_request_frame (req : request) (d1 d2 : DB) (pk : Z) :
  students d2 = students d1 -> faces d2 = faces d1 ->
  matched_in_request req d1 pk -> matched_in_request req d2 pk.
Proof.
  intros Hs Hf. unfold matched_in_request, known_faces_rows. by rewrite Hs, Hf.
Qed.

(** X3.  A request served with no query or commit failure, sent again on the
    same day, writes nothing the second time. *)
Theorem recognize_again_same_day (env1 env2 : environment) (req : request)
    (st : app_state) :
  known_faces_error env1 = None ->
  (forall i, lookup_error env1 i = None) ->
  (forall i, commit_error env1 i = None) ->
  today env2 = today env1 ->
  db (recognize env2 req (recognize env1 req st).2).2 =
  db (recognize env1 req st).2.
Proof.
  intros Hquery Hlookup Hcommit Htoday.
  apply recognize_db_unchanged. intros pk Hpk. rewrite Htoday.
  apply recognize_marks_all; try done.
  destruct (recognize_step env1 req st) as (Hs & Hf & _).
  eapply matched_in_request_frame; [| |exact Hpk]; done.
Qed.

(** X9.  A student matched by a request that meets no query or commit failure
    is on the list of today afterwards, under the name and student id of
    the [Student] row, and the dashboard counts at least one student
    present. *)
Theorem recognized_student_is_listed (env : environment) (req : request)
    (st : app_state) (pk : Z) :
  known_faces_error env = None ->
  (forall i, lookup_error env i = None) ->
  (forall i, commit_error env i = None) ->
  matched_in_request req (db st) pk ->
  exists (s : Student) (entries : list json) (entry : json),
    s ∈ students (db st) /\ s_id s = pk /\
    get_today_attendance env (db (recognize env req st).2) =
      JsonResponse (JList entries) 200 /\
    entry ∈ entries /\
    json_field "name" entry = Some (JStr (s_name s)) /\
    json_field "student_id" entry = Some (JStr (s_student_id s)) /\
    1 <= present_today (index env (db (recognize env req st).2)).
Proof.
  intros Hquery Hlookup Hcommit Hmatched.
  pose proof (recognize_marks_all env req st pk Hquery Hlookup Hcommit Hmatched)
    as Hrow.
  apply attendance_on_nonempty in Hrow as (a & Ha & Hid & Hdate).
  assert (Hstudent : pk ∈ map s_id (students (db st))).
  { destruct Hmatched as (? & ? & ? & ? & ? & ? & _ & _ & _ & _ & _ & _ & Hamong).
    destruct Hamong as (_ & _ & _ & idx & _ & Hidx).
    by eapply known_faces_student. }
  apply list_elem_of_fmap in Hstudent as (s & Hpk & Hs).
  destruct (recognize_step env req st) as (Hstudents & _).
  exists s, (map today_entry (today_records env (db (recognize env req st).2))),
         (today_entry (a, s)).
  split; [done|]. split; [done|]. split; [done|]. split; [|split; [done|split; [done|]]].
  - apply list_elem_of_fmap. exists (a, s). split; [done|].
    apply elem_of_today_records. simpl. rewrite Hstudents. by rewrite <- Hpk, Hid.
  - unfold index, distinct_present. simpl.
    assert (Hin : pk ∈ remove_dups (map a_student_id
                    (attendance_today (today env)
                       (attendance (db (recognize env req st).2))))).
    { apply elem_of_remove_dups, list_elem_of_fmap. exists a. split; [done|].
      unfold attendance_today. by apply list_elem_of_filter. }
    destruct (remove_dups _); [by apply elem_of_nil in Hin|]. simpl. lia.
Qed.

(** X5.  Any sequence of recognition requests keeps the key constraints of
    the schema: every row it adds refers to a student of the [Student]
    table, which it leaves alone. *)
Theorem run_recognize_keeps_foreign_keys (reqs : list (environment * request)) :
  forall st : app_state,
    foreign_keys_hold (db st) ->
    foreign_keys_hold (db (run_recognize reqs st)) /\
    students (db (run_recognize reqs st)) = students (db st) /\
    faces (db (run_recognize reqs st)) = faces (db st).
Proof.
  induction reqs as [|[env req] rest IH]; intros st Hkeys; simpl; [done|].
  destruct (recognize_step env req st) as (Hs & Hf & _).
  destruct (IH (recognize env req st).2) as (Hkeys' & Hs' & Hf').
  { by apply recognize_keeps_foreign_keys. }
  split; [done|]. split; congruence.
Qed.

End RecognizeRepeat.

(** ** The report and the export agree *)

Section ReportAgainstExport.

Context `{Ext : External}.

(** With one row per student and day, the rows of one student carry
    different dates. *)
Lemma one_row_per_day_dates (pk : Z) (P : Attendance -> bool)
    (att : list Attendance) :
  one_row_per_day att ->
  NoDup (map a_date (filter (fun r => a_student_id r = pk /\ P r) att)).
Proof.
  induction att as [|a rest IH]; intros Hinv; [constructor|].
  pose proof (one_row_per_day_tail a rest Hinv) as Hrest.
  destruct (decide (a_student_id a = pk /\ P a)) as [[Hid HP] | Hno].
  - rewrite filter_cons_True by done. simpl. apply NoDup_cons. split; [|by apply IH].
    intros Hin. apply list_elem_of_fmap in Hin as (b & Hdate & Hb).
    apply list_elem_of_filter in Hb as [[Hbid _] Hb].
    specialize (Hinv pk (a_date a)).
    change (a :: rest) with ([a] ++ rest) in Hinv.
    rewrite attendance_on_app, length_app, attendance_on_one_hit in Hinv by done.
    assert (Hhit : b ∈ attendance_on pk (a_date a) rest).
    { by apply elem_of_attendance_on. }
    destruct (attendance_on pk (a_date a) rest); [by apply elem_of_nil in Hhit|].
    simpl in Hinv. lia.
  - rewrite filter_cons_False by done. by apply IH.
Qed.

Lemma length_remove_dups_NoDup {A : Type} `{EqDecision A} (l : list A) :
  NoDup l -> length (remove_dups l) = length l.
Proof.
  intros Hl. apply Permutation_length, NoDup_Permutation; [|done|].
  - apply NoDup_remove_dups.
  - intros x. apply elem_of_remove_dups.
Qed.

(** Every row in range is counted for exactly one student. *)
Lemma sum_student_rows (P : Attendance -> bool) (ss : list Student)
    (att : list Attendance) :
  NoDup (map s_id ss) ->
  (forall a, a ∈ att -> a_student_id a ∈ map s_id ss) ->
  sum_list (map (fun s =>
              length (filter (fun r => a_student_id r = s_id s /\ P r) att)) ss) =
  length (filter (fun a => P a) att).
Proof.
  intros Hpk. induction att as [|a rest IH]; intros Hfk.
  - clear Hfk Hpk. induction ss as [|s ss' IHs]; [done|]. exact IHs.
  - assert (Hone : forall ss0,
      sum_list (map (fun s =>
        length (filter (fun r => a_student_id r = s_id s /\ P r) (a :: rest))) ss0) =
      ((if P a then length (filter (fun s => s_id s = a_student_id a) ss0) else 0) +
       sum_list (map (fun s =>
         length (filter (fun r => a_student_id r = s_id s /\ P r) rest)) ss0))%nat).
    { induction ss0 as [|s ss' IHs]; [by destruct (P a)|]. simpl. rewrite IHs.
      destruct (P a) eqn:HP.
      - destruct (decide (a_student_id a = s_id s)) as [Hid | Hid].
        + rewrite filter_cons_True by (rewrite HP; done).
          rewrite (filter_cons_True (fun s0 => s_id s0 = a_student_id a)) by done.
          simpl. lia.
        + rewrite filter_cons_False by (intros [? _]; done).
          rewrite (filter_cons_False (fun s0 => s_id s0 = a_student_id a))
            by (intros ?; done).
          lia.
      - rewrite filter_cons_False by (rewrite HP; intros [_ ?]; done). lia. }
    rewrite Hone, IH by (intros a' Ha'; apply Hfk, elem_of_cons; by right).
    destruct (P a) eqn:HP.
    + rewrite filter_cons_True by (rewrite HP; simpl; tauto).
      rewrite filter_one_student; [done | done |]. apply Hfk, elem_of_cons. by left.
    + rewrite filter_cons_False by (rewrite HP; simpl; tauto). done.
Qed.

(** X14.  The report and the export of one range agree: with one row per
    student and day, over a store that satisfies the key constraints, the
    [present_count]s of the report add up to the number of data rows of
    the export. *)
Theorem report_total_is_export_rows (req : request) (d : DB)
    (start_date end_date : date) :
  foreign_keys_hold d ->
  one_row_per_day (attendance d) ->
  (forall a, a ∈ attendance d -> valid_date (a_date a)) ->
  strptime_date (args_get (args req) "start_date") = Ok start_date ->
  strptime_date (args_get (args req) "end_date") = Ok end_date ->
  exists counts : list nat,
    present_counts (get_reports_data req d) =
      map (fun n => Some (JInt (Z.of_nat n))) counts /\
    sum_list counts = length (data_rows (export_csv req d)).
Proof.
  intros [Hpk Hfk] Hinv Hvalid Hs He.
  exists (map (fun s => length (student_records s start_date end_date (attendance d)))
              (students d)).
  split.
  - unfold get_reports_data, parse_range, result_bind. rewrite Hs, He. simpl.
    unfold report_data. rewrite <- !list_fmap_compose.
    apply list_fmap_ext. intros i s _. simpl. do 3 f_equal.
    unfold present_dates.
    assert (Hiso : forall l : list Attendance,
              map (fun r => isoformat (a_date r)) l = map isoformat (map a_date l))
      by (intros l; by rewrite <- list_fmap_compose).
    rewrite Hiso, size_iso_set.
    + rewrite length_remove_dups_NoDup; [by rewrite length_map|].
      unfold student_records.
      by apply (one_row_per_day_dates (s_id s) (in_range start_date end_date)).
    + apply Forall_forall. intros dt Hdt.
      apply list_elem_of_fmap in Hdt as (r & -> & Hr).
      apply Hvalid. unfold student_records in Hr.
      by apply list_elem_of_filter in Hr as [_ ?].
  - rewrite (export_csv_ok req d start_date end_date Hs He), length_map.
    unfold export_records.
    rewrite order_by_sort_by, (Permutation_length (sort_by_perm _ _)).
    unfold attendance_join_student.
    rewrite (join_filter_length (in_range start_date end_date)) by done.
    unfold student_records.
    by apply (sum_student_rows (in_range start_date end_date)).
Qed.

End ReportAgainstExport.

(** ** One row per student in one request *)

Section RecognizeOnce.

Context `{Ext : External}.

Lemma marks_once_refl (env : environment) (st : app_state) : marks_once env st st.
Proof.
  exists []. rewrite app_nil_r. split; [done|]. split; constructor.
Qed.

Lemma marks_once_trans (env : environment) (st1 st2 st3 : app_state) :
  marks_once env st1 st2 -> marks_once env st2 st3 -> marks_once env st1 st3.
Proof.
  intros (add1 & Ha1 & Hnd1 & Hall1) (add2 & Ha2 & Hnd2 & Hall2).
  rewrite Forall_forall in Hall1. rewrite Forall_forall in Hall2.
  exists (add1 ++ add2). split; [by rewrite Ha2, Ha1, app_assoc|]. split.
  - rewrite map_app. apply NoDup_app. split; [done|]. split; [|done].
    intros pk Hin1 Hin2.
    apply list_elem_of_fmap in Hin1 as (y & -> & Hy).
    apply list_elem_of_fmap in Hin2 as (x & Hid & Hx).
    destruct (Hall1 y Hy) as [Hdate _]. destruct (Hall2 x Hx) as [_ Hfree].
    rewrite Ha1, attendance_on_app in Hfree.
    apply app_eq_nil in Hfree as [_ Hfree].
    assert (Hhit : y ∈ attendance_on (a_student_id x) (today env) add1).
    { by apply elem_of_attendance_on. }
    rewrite Hfree in Hhit. by apply elem_of_nil in Hhit.
  - apply Forall_forall. intros a Ha. apply elem_of_app in Ha as [Ha | Ha].
    + by apply Hall1.
    + destruct (Hall2 a Ha) as [Hdate Hfree]. split; [done|].
      rewrite Ha1, attendance_on_app in Hfree.
      by apply app_eq_nil in Hfree as [? _].
Qed.

Lemma marks_once_log (env : environment) (msg : string) (st st' : app_state) :
  marks_once env st st' -> marks_once env st (log_error msg st').
Proof. done. Qed.

Lemma process_face_once (env : environment)
    (known_encodings : list encoding) (known_student_ids : list Z)
    (known_names : list string) (i : nat) (loc : location)
    (live : encoding) (st : app_state) :
  marks_once env st
    (process_face env known_encodings known_student_ids known_names i loc live st).2.
Proof.
  unfold process_face.
  destruct (compare_face known_encodings live tolerance) as [match_idx confidence].
  destruct match_idx as [idx|]; [|apply marks_once_refl].
  unfold bind, lift, ret, py_index, query_already_marked, mark_attendance.
  destruct (known_names !! idx) as [name|]; [|apply marks_once_refl].
  destruct (known_student_ids !! idx) as [pk|]; [|apply marks_once_refl].
  destruct (lookup_error env i); [apply marks_once_refl|].
  destruct (head _) as [row|] eqn:Hhead; [apply marks_once_refl|].
  apply head_None in Hhead.
  destruct (commit_error env i); [apply marks_once_log, marks_once_refl|].
  simpl. eexists [_]. split; [done|]. split.
  - apply NoDup_singleton.
  - by apply Forall_singleton.
Qed.

Lemma recognize_loop_once (env : environment)
    (known_encodings : list encoding) (known_student_ids : list Z)
    (known_names : list string) (detected : list (location * encoding)) :
  forall (i : nat) (st : app_state),
    marks_once env st
      (recognize_loop env known_encodings known_student_ids known_names
         i detected st).2.
Proof.
  induction detected as [|[loc live] rest IH]; intros i st; simpl.
  - apply marks_once_refl.
  - unfold bind at 1.
    pose proof (process_face_once env known_encodings known_student_ids
                  known_names i loc live st) as Hhead.
    destruct (process_face _ _ _ _ _ _ _ st) as [[r|e] st1]; simpl in Hhead; [|done].
    unfold bind at 1. specialize (IH (S i) st1).
    pose proof (marks_once_trans env st st1 _ Hhead IH) as Hboth.
    by destruct (recognize_loop _ _ _ _ _ rest st1) as [[rs|e] st2].
Qed.

(** X1.  Whatever the picture shows and whatever fails, one request adds to
    [Attendance] only rows dated today, at most one per student, and none
    for a student who already had a row for today. *)
Theorem recognize_marks_each_student_once (env : environment) (req : request)
    (st : app_state) :
  exists added : list Attendance,
    attendance (db (recognize env req st).2) = attendance (db st) ++ added /\
    NoDup (map a_student_id added) /\
    Forall (fun a =>
              a_date a = today env /\
              attendance_on (a_student_id a) (today env) (attendance (db st)) = [])
           added.
Proof.
  change (marks_once env st (recognize env req st).2).
  unfold recognize.
  destruct (files_image req) as [file|]; [|apply marks_once_refl].
  assert (Hbody : marks_once env st (recognize_body env file st).2).
  { unfold recognize_body, bind, lift, ret, query_known_faces.
    destruct (read file) as [in_memory|]; [|apply marks_once_refl].
    destruct (imdecode in_memory) as [[img|]|]; try apply marks_once_refl.
    destruct (cvtColor img) as [rgb_img|]; [|apply marks_once_refl].
    destruct (face_locations rgb_img) as [locations|]; [|apply marks_once_refl].
    destruct (face_encodings rgb_img locations) as [live_encodings|];
      [|apply marks_once_refl].
    destruct (known_faces_error env); [apply marks_once_refl|].
    destruct (known_faces_rows (db st)) as [|kf rest]; [apply marks_once_refl|].
    cbv zeta.
    match goal with
    | |- context [recognize_loop ?e ?ke ?ki ?kn ?i ?det st] =>
        pose proof (recognize_loop_once e ke ki kn det i st) as Hloop;
        destruct (recognize_loop e ke ki kn i det st) as [[rs|err] st1]
    end; done. }
  destruct (recognize_body env file st) as [[resp|e] st1]; simpl in *; [done|].
  by apply marks_once_log.
Qed.

End RecognizeOnce.

(** ** The theorems on concrete requests *)

Section Evaluations.

Import Sample.
#[local] Existing Instance ext.

Lemma taxicab_nonneg (a b : list Q) : (0 <= taxicab a b)%Q.
Proof.
  revert b. induction a as [|x a IH]; intros [|y b]; cbn [taxicab];
    try apply Qle_refl.
  rewrite <- (Qplus_0_r 0). apply Qplus_le_compat; [apply Qabs_nonneg | apply IH].
Qed.

(** Four requests showing Asha, one of them with a failing commit; and two
    faces of Asha in one loop. *)
Lemma recognize_one_row_per_student_and_date_witness :
  let reqs := [(calm monday, post picture_of_asha);
               (locked monday, post picture_of_asha);
               (calm monday, post picture_of_asha);
               (calm tuesday, post picture_of_asha)] in
  let st1 := (process_face (calm monday) known_encodings0 known_student_ids0
                known_names0 0 box0 [(1 # 10)%Q] start).2 in
  let st2 := (process_face (calm monday) known_encodings0 known_student_ids0
                known_names0 1 box0 [(1 # 10)%Q] st1).2 in
  one_row_per_day (attendance (db start)) /\
  one_row_per_day (attendance (db (run_recognize reqs start))) /\
  length (attendance_on 1 monday (attendance (db st2))) = 1%nat.
Proof.
  intros reqs st1 st2.
  assert (Hinv : one_row_per_day (attendance (db start))).
  { intros pk d. simpl. lia. }
  destruct (recognize_one_row_per_student_and_date (Ext := ext) reqs start Hinv) as [Hrun Htwice].
  split; [exact Hinv|]. split; [exact Hrun|].
  apply (Htwice (calm monday) (calm monday) known_encodings0 known_student_ids0
           known_names0 0%nat 1%nat box0 box0 [(1 # 10)%Q] [(1 # 10)%Q]
           0%nat 0%nat "Asha" "Asha" 1); reflexivity.
Defined.

(** A stranger at distance 0.6 from the nearest known encoding. *)
Lemma compare_face_min_below_tolerance_witness :
  known_encodings0 <> [] /\
  ((exists (i : nat) (k : list Q),
      known_encodings0 !! i = Some k /\
      (forall k', k' ∈ known_encodings0 ->
                  (taxicab k [(9 # 10)%Q] <= taxicab k' [(9 # 10)%Q])%Q) /\
      (forall j, (compare_face known_encodings0 [(9 # 10)%Q] tolerance).1 = Some j <->
                 j = i /\ (taxicab k [(9 # 10)%Q] < 1 # 2)%Q)) /\
   ((forall k', k' ∈ known_encodings0 -> (1 # 2 < taxicab k' [(9 # 10)%Q])%Q) ->
    (compare_face known_encodings0 [(9 # 10)%Q] tolerance).1 = None)).
Proof.
  assert (Hne : known_encodings0 <> []) by discriminate.
  split; [exact Hne|].
  exact (compare_face_min_below_tolerance (Ext := ext) known_encodings0 [(9 # 10)%Q] Hne).
Defined.

(** C3, refuted as stated.  With two students enrolled under the same
    encoding, the matcher run on the second student's own encoding
    answers the index of the first: no index can belong to both. *)
Lemma compare_face_own_encoding_counterexample :
  ~ (forall (known_faces : list (list Q * Z * string)) (pos : nat)
            (own : list Q) (student_pk : Z) (name : string),
       known_faces !! pos = Some (own, student_pk, name) ->
       exists i,
         (compare_face (map (fun f => f.1.1) known_faces) own tolerance).1 = Some i /\
         map (fun f => f.1.2) known_faces !! i = Some student_pk).
Proof.
  intros Hclaim.
  destruct (Hclaim twins 1%nat [(1 # 10)%Q] 2 "Bina" eq_refl) as (i & Hi & Hpk).
  vm_compute in Hi. injection Hi as <-. discriminate Hpk.
Qed.

(** Asha enrolled twice, Bina once: Asha's encoding finds Asha. *)
Lemma compare_face_own_encoding_witness :
  let known_faces := [([(1 # 10)%Q], 1, "Asha"); ([(3 # 10)%Q], 2, "Bina");
                      ([(1 # 10)%Q], 1, "Asha")] in
  known_faces !! 2%nat = Some ([(1 # 10)%Q], 1, "Asha") /\
  exists i,
    (compare_face (map (fun f => f.1.1) known_faces) [(1 # 10)%Q] tolerance).1 = Some i /\
    map (fun f => f.1.2) known_faces !! i = Some 1.
Proof.
  intros known_faces. split; [reflexivity|].
  apply (compare_face_own_encoding (Ext := ext) known_faces 2 [(1 # 10)%Q] 1 "Asha").
  - apply taxicab_nonneg.
  - reflexivity.
  - reflexivity.
  - intros [|[|[|i]]] e pk n Hrow Hzero; simpl in Hrow.
    + by injection Hrow as _ <- _.
    + injection Hrow as <- _ _. vm_compute in Hzero. discriminate Hzero.
    + by injection Hrow as _ <- _.
    + discriminate Hrow.
Defined.

(** The export of Tuesday has the two rows of Tuesday. *)
Lemma export_row_count_witness :
  let req := get_range "2024-03-05" "2024-03-05" in
  foreign_keys_hold week /\
  strptime_date (args_get (args req) "start_date") = Ok tuesday /\
  strptime_date (args_get (args req) "end_date") = Ok tuesday /\
  (exists rows disposition,
     export_csv req week =
       CsvResponse
         (["Student Name"; "Student ID"; "Date"; "Time"; "Status"] :: rows)
         disposition) /\
  length (data_rows (export_csv req week)) =
  length (filter (fun a => date_leb tuesday (a_date a) &&
                           date_leb (a_date a) tuesday)
            (attendance week)).
Proof.
  intros req.
  assert (Hkeys : foreign_keys_hold week).
  { split; [compute_done|]. apply Forall_forall. compute_done. }
  split; [exact Hkeys|]. split; [reflexivity|]. split; [reflexivity|].
  exact (export_row_count (Ext := ext) req week tuesday tuesday Hkeys eq_refl eq_refl).
Defined.

(** The report of Monday and Tuesday. *)
Lemma report_present_count_witness :
  let req := get_range "2024-03-04" "2024-03-05" in
  (forall a, a ∈ attendance week -> valid_date (a_date a)) /\
  exists entries : list json,
    get_reports_data req week = JsonResponse (JList entries) 200 /\
    length entries = length (students week) /\
    forall (i : nat) (s : Student),
      students week !! i = Some s ->
      exists (entry : json) (dates : list date),
        entries !! i = Some entry /\
        json_field "id" entry = Some (JInt (s_id s)) /\
        json_field "present_count" entry = Some (JInt (Z.of_nat (length dates))) /\
        NoDup dates /\
        forall dt : date,
          dt ∈ dates <->
          date_leb monday dt = true /\ date_leb dt tuesday = true /\
          exists r, r ∈ attendance week /\ a_student_id r = s_id s /\ a_date r = dt.
Proof.
  intros req.
  assert (Hvalid : forall a, a ∈ attendance week -> valid_date (a_date a)).
  { apply Forall_forall. compute_done. }
  split; [exact Hvalid|].
  exact (report_present_count (Ext := ext) req week monday tuesday Hvalid eq_refl eq_refl).
Defined.

(** Asha's first face of the day, with the database locked and with the
    commit going through. *)
Lemma insert_failure_rolled_back_witness :
  let confidence :=
    (compare_face known_encodings0 [(10 # 100)%Q] tolerance).2 in
  recognize (locked monday) (post picture_of_asha) start =
    (JsonResponse
       (JObj [("results",
               JList [JObj [("name", JStr "Asha");
                            ("confidence", JStr (sample_format confidence));
                            ("location",
                             JList [JInt 0; JInt 10; JInt 10; JInt 0])]])])
       200,
     {| db := gallery;
        log := ["Error marking attendance: database is locked"] |}) /\
  recognize (calm monday) (post picture_of_asha) start =
    (JsonResponse
       (JObj [("results",
               JList [JObj [("name", JStr "Asha (Marked)");
                            ("confidence", JStr (sample_format confidence));
                            ("location",
                             JList [JInt 0; JInt 10; JInt 10; JInt 0])]])])
       200,
     {| db := {| students := students gallery;
                 faces := faces gallery;
                 attendance :=
                   [{| a_student_id := 1; a_date := monday;
                       a_timestamp := at_nine monday 0;
                       a_status := "Present" |}] |};
        log := [] |}).
Proof.
  intros confidence. split.
  - destruct (insert_failure_rolled_back (Ext := ext) (locked monday)
                known_encodings0 known_student_ids0 known_names0 0
                0 10 10 0 [(10 # 100)%Q] start
                0 confidence "Asha" 1 eq_refl eq_refl eq_refl eq_refl eq_refl)
      as (_ & _ & Hresp).
    exact (Hresp (post picture_of_asha) picture_of_asha [Byte.xff; Byte.x0a]
             (imap sample_face [Byte.x0a]) (imap sample_face [Byte.x0a])
             eq_refl eq_refl eq_refl eq_refl eq_refl eq_refl eq_refl eq_refl
             eq_refl eq_refl eq_refl).
  - destruct (insert_failure_rolled_back (Ext := ext) (calm monday)
                known_encodings0 known_student_ids0 known_names0 0
                0 10 10 0 [(10 # 100)%Q] start
                0 confidence "Asha" 1 eq_refl eq_refl eq_refl eq_refl eq_refl)
      as (_ & _ & Hresp).
    exact (Hresp (post picture_of_asha) picture_of_asha [Byte.xff; Byte.x0a]
             (imap sample_face [Byte.x0a]) (imap sample_face [Byte.x0a])
             eq_refl eq_refl eq_refl eq_refl eq_refl eq_refl eq_refl eq_refl
             eq_refl eq_refl eq_refl).
Defined.

(** A request without a file, and a text file sent as the image. *)
Lemma recognize_bad_request_witness :
  recognize (calm monday) (get_range "2024-03-04" "2024-03-05") start =
    (JsonResponse (JObj [("error", JStr "no image uploaded")]) 400, start) /\
  recognize (calm monday) (post text_file) start =
    (JsonResponse (JObj [("error", JStr "could not decode image")]) 400, start).
Proof.
  split.
  - exact (proj1 (recognize_bad_request (Ext := ext) (calm monday)
                    (get_range "2024-03-04" "2024-03-05") start) eq_refl).
  - exact (proj2 (recognize_bad_request (Ext := ext) (calm monday) (post text_file) start)
             text_file [Byte.x68; Byte.x69] eq_refl eq_refl eq_refl).
Defined.



(** C7, refuted as stated.  An empty upload cannot be decoded into an
    image: the decoder raises on it and the answer is 500, not 400. *)
Lemma recognize_bad_request_counterexample :
  ~ (forall (env : environment) (req : request) (st : app_state)
            (file : upload) (in_memory : list Byte.byte),
       files_image req = Some file ->
       read file = Ok in_memory ->
       (forall img, imdecode in_memory <> Ok (Some img)) ->
       status_of (recognize env req st).1 = 400).
Proof.
  intros Hclaim.
  assert (Hstatus :
    status_of (recognize (calm monday) (post empty_file) start).1 = 400).
  { apply (Hclaim (calm monday) (post empty_file) start empty_file []);
      try reflexivity. intros img. discriminate. }
  vm_compute in Hstatus. discriminate Hstatus.
Qed.

(** Two faces in the picture and no face enrolled. *)
Lemma recognize_empty_gallery_witness :
  let nobody := {| db := {| students := [asha; bina]; faces := [];
                            attendance := [] |};
                   log := [] |} in
  recognize (calm monday)
      (post {| read := Ok [Byte.xff; Byte.x0a; Byte.x5a] |}) nobody =
    (JsonResponse
       (JObj [("results", JList []);
              ("locations",
               JList [JList [JInt 0; JInt 10; JInt 10; JInt 0];
                      JList [JInt 0; JInt 20; JInt 10; JInt 10]])]) 200,
     nobody).
Proof.
  intros nobody.
  exact (recognize_empty_gallery (Ext := ext) (calm monday)
           (post {| read := Ok [Byte.xff; Byte.x0a; Byte.x5a] |}) nobody
           {| read := Ok [Byte.xff; Byte.x0a; Byte.x5a] |}
           [Byte.xff; Byte.x0a; Byte.x5a]
           (imap sample_face [Byte.x0a; Byte.x5a])
           (imap sample_face [Byte.x0a; Byte.x5a])
           (map fst (imap sample_face [Byte.x0a; Byte.x5a]))
           (map snd (imap sample_face [Byte.x0a; Byte.x5a]))
           eq_refl eq_refl eq_refl eq_refl eq_refl eq_refl eq_refl eq_refl).
Defined.


Lemma week_keys : foreign_keys_hold week.
Proof. split; [compute_done|]. apply Forall_forall. compute_done. Qed.

Lemma week_one_row_per_day : one_row_per_day (attendance week).
Proof.
  intros pk d. unfold attendance_on. simpl.
  rewrite !filter_cons, filter_nil.
  repeat case_decide; simpl; try lia; destruct_and?; simplify_eq.
Qed.

Lemma week_valid_dates : forall a, a ∈ attendance week -> valid_date (a_date a).
Proof. apply Forall_forall. compute_done. Qed.

(** What a picture of Asha matches against the sample gallery: Asha. *)
Lemma picture_of_asha_matches (d : DB) (pk : Z) :
  students d = students gallery -> faces d = faces gallery ->
  matched_in_request (post picture_of_asha) d pk -> pk = 1.
Proof.
  intros Hs Hf
    (file & in_memory & img & rgb_img & locations & live_encodings &
     Hfile & Hread & Hdec & Hcvt & Hloc & Henc &
     loc & live & Hin & idx & Hcmp & Hidx).
  unfold known_faces_rows in Hcmp, Hidx. rewrite Hs, Hf in Hcmp, Hidx.
  simpl in Hfile. injection Hfile as <-.
  simpl in Hread. injection Hread as <-.
  vm_compute in Hdec. injection Hdec as <-.
  simpl in Hcvt. injection Hcvt as <-.
  vm_compute in Hloc. injection Hloc as <-.
  vm_compute in Henc. injection Henc as <-.
  apply list_elem_of_singleton in Hin. injection Hin as -> ->.
  vm_compute in Hcmp. injection Hcmp as <-.
  vm_compute in Hidx. by injection Hidx as <-.
Qed.

Lemma asha_is_matched : matched_in_request (post picture_of_asha) (db start) 1.
Proof.
  exists picture_of_asha, [Byte.xff; Byte.x0a],
         (imap sample_face [Byte.x0a]), (imap sample_face [Byte.x0a]),
         [box0], [[(10 # 100)%Q]].
  do 6 (split; [reflexivity|]).
  exists box0, [(10 # 100)%Q]. split; [by left|].
  exists 0%nat. split; reflexivity.
Qed.

(** The dashboard of Monday over the sample week: one of two present. *)
Lemma index_counts_students_witness :
  foreign_keys_hold week /\
  total_students (index (calm monday) week) = 2 /\
  present_today (index (calm monday) week) = 1 /\
  absent_today (index (calm monday) week) = 1.
Proof.
  split; [exact week_keys|].
  destruct (index_counts_students (Ext := ext) (calm monday) week week_keys)
    as (Htotal & Hpresent & Habsent & _).
  split; [exact Htotal|]. split; [exact Hpresent | exact Habsent].
Defined.

(** The list of Tuesday over the sample week: Asha at 09:01, then Bina at
    09:00. *)
Lemma today_attendance_latest_first_witness :
  exists records : list (Attendance * Student),
    get_today_attendance (calm tuesday) week =
      JsonResponse
        (JList (map (fun x =>
           JObj [("name", JStr (s_name x.2));
                 ("student_id", JStr (s_student_id x.2));
                 ("time", JStr (strftime_clock (a_timestamp x.1)))]) records))
        200 /\
    Sorted (fun x y =>
              datetime_compare (a_timestamp y.1) (a_timestamp x.1) <> Gt) records /\
    length records = 2%nat.
Proof.
  destruct (today_attendance_latest_first (Ext := ext) (calm tuesday) week)
    as (records & Hresp & Hsorted & _ & Hlen).
  exists records. split; [exact Hresp|]. split; [exact Hsorted|].
  exact (Hlen week_keys).
Defined.

Lemma index_agrees_with_today_list_witness :
  foreign_keys_hold week /\ one_row_per_day (attendance week) /\
  exists entries : list json,
    get_today_attendance (calm tuesday) week = JsonResponse (JList entries) 200 /\
    present_today (index (calm tuesday) week) = Z.of_nat (length entries).
Proof.
  split; [exact week_keys|]. split; [exact week_one_row_per_day|].
  exact (index_agrees_with_today_list (Ext := ext) (calm tuesday) week
           week_keys week_one_row_per_day).
Defined.


Lemma week_printable :
  forall a, a ∈ attendance week ->
            valid_date (a_date a) /\ printable_timestamp (a_timestamp a).
Proof.
  apply Forall_forall.
  repeat (constructor; [split; [compute_done | unfold printable_timestamp; simpl; lia]|]).
  constructor.
Qed.

Lemma export_rows_content_witness :
  (forall a, a ∈ attendance week ->
             valid_date (a_date a) /\ printable_timestamp (a_timestamp a)) /\
  ["Bina"; "S002"; "2024-03-05"; "2024-03-05 09:00:00"; "Present"]
    ∈ data_rows (export_csv (get_range "2024-03-05" "2024-03-05") week) /\
  ["Asha"; "S001"; "2024-03-04"; "2024-03-04 09:00:00"; "Present"]
    ∉ data_rows (export_csv (get_range "2024-03-05" "2024-03-05") week).
Proof.
  split; [exact week_printable|]. split.
  - apply (export_rows_content (Ext := ext) (get_range "2024-03-05" "2024-03-05")
             week tuesday tuesday _ week_printable eq_refl eq_refl).
    exists {| a_student_id := 2; a_date := tuesday;
              a_timestamp := at_nine tuesday 0; a_status := "Present" |}, bina.
    split; [do 2 right; by left|]. split; [right; by left|].
    repeat split; reflexivity.
  - intros Hin.
    apply (export_rows_content (Ext := ext) (get_range "2024-03-05" "2024-03-05")
             week tuesday tuesday _ week_printable eq_refl eq_refl) in Hin
      as (a & s & _ & _ & _ & Hlo & Hhi & Hrow).
    apply (f_equal (fun l : list string => l !! 2%nat)) in Hrow.
    rewrite <- (date_leb_antisym _ _ Hlo Hhi) in Hrow.
    vm_compute in Hrow. discriminate Hrow.
Defined.

Lemma inverted_range_is_empty_witness :
  date_leb tuesday monday = false /\
  (exists disposition,
     export_csv (get_range "2024-03-05" "2024-03-04") week =
       CsvResponse [["Student Name"; "Student ID"; "Date"; "Time"; "Status"]]
                   disposition) /\
  present_counts (get_reports_data (get_range "2024-03-05" "2024-03-04") week) =
    [Some (JInt 0); Some (JInt 0)].
Proof.
  split; [reflexivity|].
  exact (inverted_range_is_empty (Ext := ext) (get_range "2024-03-05" "2024-03-04")
           week tuesday monday eq_refl eq_refl eq_refl).
Defined.

Lemma report_present_dates_witness :
  exists (entries : list json) (entry : json) (isos : list string),
    get_reports_data (get_range "2024-03-04" "2024-03-05") week =
      JsonResponse (JList entries) 200 /\
    entries !! 0%nat = Some entry /\
    json_field "name" entry = Some (JStr "Asha") /\
    json_field "student_id" entry = Some (JStr "S001") /\
    json_field "present_dates" entry = Some (JList (map JStr isos)) /\
    json_field "present_count" entry = Some (JInt (Z.of_nat (length isos))) /\
    NoDup isos /\
    forall iso : string,
      iso ∈ isos <->
      exists r, r ∈ attendance week /\ a_student_id r = 1 /\
                date_leb monday (a_date r) = true /\
                date_leb (a_date r) tuesday = true /\
                iso = isoformat (a_date r).
Proof.
  exact (report_present_dates (Ext := ext) (get_range "2024-03-04" "2024-03-05")
           week monday tuesday 0 asha eq_refl eq_refl eq_refl).
Defined.

(** A picture with Asha and a stranger, against the sample gallery. *)
Lemma recognize_answers_every_face_witness :
  let req := post {| read := Ok [Byte.xff; Byte.x0a; Byte.x5a] |} in
  exists results : list json,
    (recognize (calm monday) req start).1 =
      JsonResponse (JObj [("results", JList results)]) 200 /\
    length results = 2%nat /\
    exists r0 r1,
      results !! 0%nat = Some r0 /\ results !! 1%nat = Some r1 /\
      json_field "location" r0 = Some (JList [JInt 0; JInt 10; JInt 10; JInt 0]) /\
      json_field "location" r1 = Some (JList [JInt 0; JInt 20; JInt 10; JInt 10]) /\
      json_field "name" r1 = Some (JStr "Unknown").
Proof.
  intros req.
  destruct (recognize_answers_every_face (Ext := ext) (calm monday) req start
              {| read := Ok [Byte.xff; Byte.x0a; Byte.x5a] |}
              [Byte.xff; Byte.x0a; Byte.x5a]
              (imap sample_face [Byte.x0a; Byte.x5a])
              (imap sample_face [Byte.x0a; Byte.x5a])
              (map fst (imap sample_face [Byte.x0a; Byte.x5a]))
              (map snd (imap sample_face [Byte.x0a; Byte.x5a]))
              eq_refl eq_refl eq_refl eq_refl eq_refl eq_refl eq_refl
              (fun _ => eq_refl) ltac:(discriminate))
    as (results & Hresp & Hlen & Hfaces).
  exists results. split; [exact Hresp|]. split; [exact Hlen|].
  destruct (Hfaces 0%nat _ _ eq_refl eq_refl)
    as (r0 & name0 & Hr0 & _ & Hloc0 & _).
  destruct (Hfaces 1%nat _ _ eq_refl eq_refl)
    as (r1 & name1 & Hr1 & Hname1 & Hloc1 & Hunknown & _).
  exists r0, r1. split; [exact Hr0|]. split; [exact Hr1|].
  split; [exact Hloc0|]. split; [exact Hloc1|].
  rewrite Hname1. f_equal. f_equal. exact (Hunknown eq_refl).
Defined.

(** Asha, already marked on Monday, shows up again. *)
Lemma recognize_no_new_student_witness :
  let seen := (recognize (calm monday) (post picture_of_asha) start).2 in
  db (recognize (locked monday) (post picture_of_asha) seen).2 = db seen.
Proof.
  intros seen.
  apply (recognize_no_new_student (Ext := ext)).
  intros pk Hpk.
  rewrite (picture_of_asha_matches (db seen) pk eq_refl eq_refl Hpk).
  discriminate.
Defined.

Lemma recognize_again_same_day_witness :
  db (recognize (locked monday) (post picture_of_asha)
        (recognize (calm monday) (post picture_of_asha) start).2).2 =
  db (recognize (calm monday) (post picture_of_asha) start).2.
Proof.
  exact (recognize_again_same_day (Ext := ext) (calm monday) (locked monday)
           (post picture_of_asha) start eq_refl (fun _ => eq_refl)
           (fun _ => eq_refl) eq_refl).
Defined.

Lemma recognized_student_is_listed_witness :
  matched_in_request (post picture_of_asha) (db start) 1 /\
  exists (s : Student) (entries : list json) (entry : json),
    s ∈ students (db start) /\ s_id s = 1 /\
    get_today_attendance (calm monday)
        (db (recognize (calm monday) (post picture_of_asha) start).2) =
      JsonResponse (JList entries) 200 /\
    entry ∈ entries /\
    json_field "name" entry = Some (JStr (s_name s)) /\
    json_field "student_id" entry = Some (JStr (s_student_id s)) /\
    1 <= present_today
           (index (calm monday)
              (db (recognize (calm monday) (post picture_of_asha) start).2)).
Proof.
  split; [exact asha_is_matched|].
  exact (recognized_student_is_listed (Ext := ext) (calm monday)
           (post picture_of_asha) start 1 eq_refl (fun _ => eq_refl)
           (fun _ => eq_refl) asha_is_matched).
Defined.

(** Over the sample week the counts 2 and 1 add up to the three exported
    rows. *)
Lemma report_total_is_export_rows_witness :
  exists counts : list nat,
    present_counts (get_reports_data (get_range "2024-03-04" "2024-03-05") week) =
      map (fun n => Some (JInt (Z.of_nat n))) counts /\
    sum_list counts =
      length (data_rows (export_csv (get_range "2024-03-04" "2024-03-05") week)).
Proof.
  exact (report_total_is_export_rows (Ext := ext)
           (get_range "2024-03-04" "2024-03-05") week monday tuesday
           week_keys week_one_row_per_day week_valid_dates eq_refl eq_refl).
Defined.

Lemma gallery_keys : foreign_keys_hold (db start).
Proof. split; [compute_done|]. apply Forall_forall. compute_done. Qed.

Lemma run_recognize_keeps_foreign_keys_witness :
  let reqs := [(calm monday, post picture_of_asha);
               (locked monday, post picture_of_stranger);
               (calm tuesday, post picture_of_asha)] in
  foreign_keys_hold (db start) /\
  foreign_keys_hold (db (run_recognize reqs start)) /\
  students (db (run_recognize reqs start)) = students (db start) /\
  faces (db (run_recognize reqs start)) = faces (db start).
Proof.
  intros reqs. split; [exact gallery_keys|].
  exact (run_recognize_keeps_foreign_keys (Ext := ext) reqs start gallery_keys).
Defined.

End Evaluations.
